(** * lab2_image_capture_gui.py: the ImageCaptureFrame capture session

    A shallow embedding of [ImageCaptureFrame] (a Tkinter frame that previews
    a webcam and saves numbered [.jpg] captures) together with the properties
    of its file numbering, its save path and its teardown.

    Layout:
    - [Py], [os_path]: the Python built-ins and [os.path] helpers the class
      calls ([str], [len], slicing, [str.lower], [splitext], [join]);
    - [Exec]: a state-and-exception monad for method bodies;
    - the world (file system, camera, Tk root, console) and the methods
      [get_current_count], [video_loop], [save_image], [create_directory],
      [destructor], each following its Python body statement by statement;
    - the theorems. *)

From Equations Require Import Equations.
From stdpp Require Import base option list gmap fin_maps strings.
From Stdlib Require Import ZArith String Ascii Lia.
From Stdlib.Strings Require Byte.

Local Open Scope string_scope.
Local Open Scope Z_scope.

(* ===================================================================== *)
(** ** Python built-ins on [int] and [str] *)
(* ===================================================================== *)

Module Py.

(** The character of a decimal digit [0 <= d <= 9]. *)
Definition digit_char (d : Z) : ascii := ascii_of_nat (48 + Z.to_nat d).

(** [str(n)] for [n >= 0]: most significant digit first, no leading zero. *)
Equations? str_nonneg (n : Z) : string by wf (Z.to_nat (Z.log2 n)) lt :=
  str_nonneg n with Z_lt_dec n 10 => {
    | left _ := String (digit_char n) EmptyString ;
    | right _ := str_nonneg (n / 10) +:+ String (digit_char (n mod 10)) EmptyString }.
Proof.
  assert (Hn : 10 <= n) by lia.
  pose proof (Z.log2_spec n ltac:(lia)) as Hk.
  pose proof (Z.log2_nonneg n) as H0.
  rewrite Z.pow_succ_r in Hk by assumption.
  assert (Hq : 0 < n / 10 < 2 ^ Z.log2 n).
  { split; [apply Z.div_str_pos; lia | apply Z.div_lt_upper_bound; lia]. }
  assert (Z.log2 (n / 10) < Z.log2 n) by (apply Z.log2_lt_pow2; lia).
  pose proof (Z.log2_nonneg (n / 10)).
  lia.
Qed.

(** [str(n)] on a Python [int]. *)
Definition str (n : Z) : string :=
  if n <? 0 then String "-" (str_nonneg (- n)) else str_nonneg n.

(** [len(s)] *)
Definition len (s : string) : Z := Z.of_nat (String.length s).

(** [s[k:]] for [k >= 0] (a negative [k] counts from the end). *)
Fixpoint drop_chars (k : nat) (s : string) : string :=
  match k, s with
  | O, _ => s
  | S k', String _ r => drop_chars k' r
  | S _, EmptyString => EmptyString
  end.

(** [s[:k]] for [k >= 0]. *)
Fixpoint take_chars (k : nat) (s : string) : string :=
  match k, s with
  | O, _ => EmptyString
  | S k', String a r => String a (take_chars k' r)
  | S _, EmptyString => EmptyString
  end.

Definition slice_from (k : Z) (s : string) : string :=
  if k <? 0 then drop_chars (Z.to_nat (len s + k)) s
  else drop_chars (Z.to_nat k) s.

Definition slice_to (k : Z) (s : string) : string :=
  if k <? 0 then take_chars (Z.to_nat (len s + k)) s
  else take_chars (Z.to_nat k) s.

(** [s.rfind(c)] for a one-character [c]: the highest index, or [-1]. *)
Fixpoint rfind (c : ascii) (s : string) : Z :=
  match s with
  | EmptyString => -1
  | String a r =>
      let k := rfind c r in
      if 0 <=? k then 1 + k
      else if Ascii.eqb a c then 0 else -1
  end.

(** [c.lower()] on one character: [A-Z] move to [a-z]; every other byte,
    including the bytes of a non-ASCII character, stays. *)
Definition lower_char (a : ascii) : ascii :=
  let n := nat_of_ascii a in
  if ((65 <=? n)%nat && (n <=? 90)%nat)%bool then ascii_of_nat (n + 32) else a.

(** [s.lower()] *)
Fixpoint lower (s : string) : string :=
  match s with
  | EmptyString => EmptyString
  | String a r => String (lower_char a) (lower r)
  end.

(** [x in l] for a list of strings. *)
Definition str_in (x : string) (l : list string) : bool :=
  existsb (String.eqb x) l.

End Py.

(* ===================================================================== *)
(** ** [os.path] (POSIX flavour) *)
(* ===================================================================== *)

Module os_path.

(** Are all characters of [s] the extension separator? *)
Fixpoint all_dots (s : string) : bool :=
  match s with
  | EmptyString => true
  | String a r => Ascii.eqb a "." && all_dots r
  end.

(** [os.path.splitext(p)]: the extension starts at the last dot that
    follows the last slash, unless only dots stand between them (leading
    dots of the file name do not start an extension). The scanning loop
    of the library is the [all_dots] test on the characters between
    [sepIndex + 1] and [dotIndex]. *)
Definition splitext (p : string) : string * string :=
  let sepIndex := Py.rfind "/" p in
  let dotIndex := Py.rfind "." p in
  if (sepIndex <? dotIndex)
     && negb (all_dots (Py.slice_from (sepIndex + 1) (Py.slice_to dotIndex p)))
  then (Py.slice_to dotIndex p, Py.slice_from dotIndex p)
  else (p, EmptyString).

(** A path produced by [os.path.join(folder, name)]: kept as the pair of
    its directory and its last component, with [path_str] as its text. *)
Record path := Path { path_dir : string; path_name : string }.

Definition ends_with_sep (s : string) : bool :=
  match String.length s with
  | O => false
  | S k => String.eqb (Py.drop_chars k s) "/"
  end.

Definition join (folder name : string) : path := Path folder name.

(** The text of a joined path, as [print] shows it. *)
Definition path_str (p : path) : string :=
  let a := path_dir p in
  let b := path_name p in
  if String.prefix "/" b then b
  else if (String.eqb a EmptyString || ends_with_sep a)%bool then a +:+ b
  else a +:+ "/" +:+ b.

End os_path.

(* ===================================================================== *)
(** ** File names of captures ([save_image], lines 122-125) *)
(* ===================================================================== *)

(** [current = '00000000'] *)
Definition current : string := "00000000".

(** [new = current[len(str(self.count)):] + str(self.count)] *)
Definition new_name (count : Z) : string :=
  Py.slice_from (Py.len (Py.str count)) current +:+ Py.str count.

(** [filename = new + '.jpg'] *)
Definition filename (count : Z) : string := new_name count +:+ ".jpg".

(** [valid_images = [".jpg"]] *)
Definition valid_images : list string := [".jpg"].

(** The test of the listing loop, written positively:
    [os.path.splitext(i)[1].lower() in valid_images]. *)
Definition has_valid_ext (i : string) : bool :=
  let ext := snd (os_path.splitext i) in
  Py.str_in (Py.lower ext) valid_images.

(* ===================================================================== *)
(** ** The world of one capture session *)
(* ===================================================================== *)

(** A pixel: three 8-bit channels. A raster is a list of rows; a camera
    frame keeps its channels in capture order (B, G, R), a PIL image in
    display order (R, G, B). *)
Definition Pixel : Type := Byte.byte * Byte.byte * Byte.byte.
Definition Raster : Type := list (list Pixel).
Definition Frame : Type := Raster.
Definition Image : Type := Raster.

(** What a name in a directory designates. [ImageFile f] is a readable
    regular file holding the encoding of the pixel array [f]; [OtherFile]
    is a readable regular file that no image decoder accepts; [SubDir] is
    a directory; [BrokenLink] is a symbolic link whose target is missing;
    [UnreadableFile] is a regular file the process may not read, whatever
    it holds. *)
Inductive Entry : Type :=
| ImageFile (f : Frame)
| OtherFile
| SubDir
| BrokenLink
| UnreadableFile.

(** Can [Image.open] open the entry? *)
Definition openable (e : Entry) : bool :=
  match e with ImageFile _ => true | _ => false end.

(** The exceptions the modelled calls raise. [OSError_EMFILE] is the plain
    [OSError] with errno 24, "Too many open files". *)
Inductive exn : Type :=
| FileNotFoundError
| FileExistsError
| PermissionError
| IsADirectoryError
| UnidentifiedImageError
| OSError_EMFILE
| ValueError
| RuntimeError
| TclError.

(** [isinstance(e, OSError)] *)
Definition is_OSError (e : exn) : bool :=
  match e with
  | FileNotFoundError | FileExistsError | PermissionError | IsADirectoryError
  | UnidentifiedImageError | OSError_EMFILE => true
  | _ => false
  end.

(** [cv2.VideoCapture]: all the class uses is whether the device is held. *)
Record VideoCapture : Type := { isOpened : bool }.

(** What the operating system lets [cv2.imwrite] do: the file is encoded
    and written; or the target cannot be opened for writing; or the target
    is opened and the encoder then fails (the disk fills up). As a yes or
    no answer, no is the target that cannot be opened. *)
Inductive imwrite_answer : Type :=
| Encoded
| CannotOpen
| EncoderFailed.

Definition answer_of_bool (b : bool) : imwrite_answer :=
  if b then Encoded else CannotOpen.

Coercion answer_of_bool : bool >-> imwrite_answer.

(** What the operating system answers to [os.makedirs]: the folder is
    made, together with the missing folders [above] it; or the call is
    refused with an [OSError] after the folders [above] were made; or the
    path is not taken as a path at all (it holds a null character) and
    the call raises [ValueError] before it touches the disk. As a truth
    value: made with nothing to make above, or refused before anything
    was made. *)
Inductive makedirs_answer : Type :=
| Made (above : list string)
| Refused (above : list string)
| Rejected.

Definition makedirs_of_bool (b : bool) : makedirs_answer :=
  if b then Made [] else Refused [].

Coercion makedirs_of_bool : bool >-> makedirs_answer.

(** Callbacks handed to Tk's [after]. *)
Inductive Callback : Type := cb_video_loop.

(** The state a method runs in: the file system (directory path to its
    entries), the room for open files, the console, the Tk root and its
    timer queue, and the attributes of the [ImageCaptureFrame] object.
    [open_max] is the number of files the process can hold open on top of
    what it holds while no method runs: its descriptor limit less the
    descriptors in use. *)
Record World : Type := {
  fs : gmap string (gmap string Entry);
  open_max : nat;
  stdout : list string;
  master_alive : bool;
  timers : list (Z * Callback);
  vs : VideoCapture;
  output_path : string;
  count : Z;
  current_image : option Image;
  panel_imgtk : option Image
}.

Definition set_fs (x : gmap string (gmap string Entry)) (w : World) : World :=
  {| fs := x; open_max := open_max w; stdout := stdout w; master_alive := master_alive w;
     timers := timers w; vs := vs w; output_path := output_path w;
     count := count w; current_image := current_image w;
     panel_imgtk := panel_imgtk w |}.

Definition set_open_max (x : nat) (w : World) : World :=
  {| fs := fs w; open_max := x; stdout := stdout w; master_alive := master_alive w;
     timers := timers w; vs := vs w; output_path := output_path w;
     count := count w; current_image := current_image w;
     panel_imgtk := panel_imgtk w |}.

Definition set_stdout (x : list string) (w : World) : World :=
  {| fs := fs w; open_max := open_max w; stdout := x; master_alive := master_alive w;
     timers := timers w; vs := vs w; output_path := output_path w;
     count := count w; current_image := current_image w;
     panel_imgtk := panel_imgtk w |}.

Definition set_tk (alive : bool) (q : list (Z * Callback)) (w : World) : World :=
  {| fs := fs w; open_max := open_max w; stdout := stdout w; master_alive := alive;
     timers := q; vs := vs w; output_path := output_path w;
     count := count w; current_image := current_image w;
     panel_imgtk := panel_imgtk w |}.

Definition set_vs (x : VideoCapture) (w : World) : World :=
  {| fs := fs w; open_max := open_max w; stdout := stdout w; master_alive := master_alive w;
     timers := timers w; vs := x; output_path := output_path w;
     count := count w; current_image := current_image w;
     panel_imgtk := panel_imgtk w |}.

Definition set_output_path (x : string) (w : World) : World :=
  {| fs := fs w; open_max := open_max w; stdout := stdout w; master_alive := master_alive w;
     timers := timers w; vs := vs w; output_path := x;
     count := count w; current_image := current_image w;
     panel_imgtk := panel_imgtk w |}.

Definition set_count (x : Z) (w : World) : World :=
  {| fs := fs w; open_max := open_max w; stdout := stdout w; master_alive := master_alive w;
     timers := timers w; vs := vs w; output_path := output_path w;
     count := x; current_image := current_image w;
     panel_imgtk := panel_imgtk w |}.

Definition set_current_image (x : option Image) (w : World) : World :=
  {| fs := fs w; open_max := open_max w; stdout := stdout w; master_alive := master_alive w;
     timers := timers w; vs := vs w; output_path := output_path w;
     count := count w; current_image := x;
     panel_imgtk := panel_imgtk w |}.

Definition set_panel_imgtk (x : option Image) (w : World) : World :=
  {| fs := fs w; open_max := open_max w; stdout := stdout w; master_alive := master_alive w;
     timers := timers w; vs := vs w; output_path := output_path w;
     count := count w; current_image := current_image w;
     panel_imgtk := x |}.

(* ===================================================================== *)
(** ** Method bodies: state passing with exceptions *)
(* ===================================================================== *)

Module Exec.

(** How a call ends. *)
Inductive outcome (A : Type) : Type :=
| Returned (a : A)
| Raised (e : exn).
Arguments Returned {A} a.
Arguments Raised {A} e.

(** A computation reads and writes the world; what it did before an
    exception stays done. *)
Definition M (A : Type) : Type := World -> outcome A * World.

Definition ret {A} (a : A) : M A := fun w => (Returned a, w).

Definition bind {A B} (m : M A) (k : A -> M B) : M B :=
  fun w =>
    match m w with
    | (Returned a, w') => k a w'
    | (Raised e, w') => (Raised e, w')
    end.

Definition raise {A} (e : exn) : M A := fun w => (Raised e, w).

Definition get : M World := fun w => (Returned w, w).

Definition modify (f : World -> World) : M unit := fun w => (Returned tt, f w).

(** [try: m  except <class>: h] *)
Definition try_except {A} (m : M A) (catches : exn -> bool) (h : M A) : M A :=
  fun w =>
    match m w with
    | (Raised e, w') => if catches e then h w' else (Raised e, w')
    | r => r
    end.

End Exec.

Import Exec.

Declare Scope exec_scope.
Delimit Scope exec_scope with exec.
Notation "'let*' x ':=' c1 'in' c2" := (bind c1 (fun x => c2))
  (at level 10, x pattern, c1 at level 100, c2 at level 200) : exec_scope.
Notation "c1 '>>' c2" := (bind c1 (fun _ => c2))
  (at level 100, c2 at level 200, right associativity) : exec_scope.
Local Open Scope exec_scope.

(* ===================================================================== *)
(** ** The library calls the class makes *)
(* ===================================================================== *)

(** [print(line)] *)
Definition print (line : string) : M unit :=
  modify (fun w => set_stdout (stdout w ++ [line]) w).

(** [os.path.exists(folder)] *)
Definition os_path_exists (folder : string) : M bool :=
  let* w := get in ret (bool_decide (is_Some (fs w !! folder))).

(** The folders of [above] that [os.makedirs(folder)] makes on its way:
    it works from the outermost missing folder inwards, and [folder] itself
    comes last. A folder that exists is left as it is. *)
Definition make_above (above : list string) (folder : string)
    (m : gmap string (gmap string Entry)) : gmap string (gmap string Entry) :=
  foldr (fun p m => if decide (p = folder) then m
                    else match m !! p with Some _ => m | None => <[p := ∅]> m end)
        m above.

(** [os.makedirs(folder)]; [answer] is the operating system's answer. On
    a path that exists it raises at once. Otherwise the folders above are
    made first, and a refusal part of the way leaves those made so far. *)
Definition os_makedirs (answer : makedirs_answer) (folder : string) : M unit :=
  let* w := get in
  match fs w !! folder with
  | Some _ => raise FileExistsError
  | None =>
      match answer with
      | Made above =>
          modify (fun w => set_fs (<[folder := ∅]> (make_above above folder (fs w))) w)
      | Refused above =>
          modify (fun w => set_fs (make_above above folder (fs w)) w) >>
          raise PermissionError
      | Rejected => raise ValueError
      end
  end.

(** [os.listdir(folder)]: the names, in the order the map enumerates. *)
Definition os_listdir (folder : string) : M (list string) :=
  let* w := get in
  match fs w !! folder with
  | Some d => ret (fst <$> map_to_list d)
  | None => raise FileNotFoundError
  end.

(** [cv2.cvtColor(frame, cv2.COLOR_BGR2RGB)] *)
Definition cvtColor_BGR2RGB (frame : Frame) : Raster :=
  map (map (fun '(b, g, r) => (r, g, b))) frame.

(** The entry a joined path leads to. *)
Definition lookup_path (p : os_path.path) (w : World) : option Entry :=
  d ← fs w !! os_path.path_dir p; d !! os_path.path_name p.

(** The error of [Image.open] on an entry it cannot open. *)
Definition open_error (e : Entry) : exn :=
  match e with
  | SubDir => IsADirectoryError
  | BrokenLink => FileNotFoundError
  | UnreadableFile => PermissionError
  | _ => UnidentifiedImageError
  end.

(** [Image.open(path)] while the caller holds [held] images open. An
    opened image keeps its file open for as long as the image lives, so
    the call needs a free descriptor first: with none left it raises
    [OSError] 24. After that a decodable file opens as the stored picture
    in display order; a directory, a broken link and an unreadable file
    fail in [open], and any other file is refused by every decoder. *)
Definition Image_open (held : nat) (p : os_path.path) : M Image :=
  let* w := get in
  if (open_max w <=? held)%nat then raise OSError_EMFILE
  else
    match lookup_path p w with
    | Some (ImageFile f) => ret (cvtColor_BGR2RGB f)
    | Some e => raise (open_error e)
    | None => raise FileNotFoundError
    end.

(** [Image.fromarray(array)] *)
Definition Image_fromarray (a : Raster) : Image := a.

(** [image.size[0]] *)
Definition width (im : Raster) : Z :=
  match im with
  | [] => 0
  | row :: _ => Z.of_nat (List.length row)
  end.

(** [image.size[1]] *)
Definition height (im : Raster) : Z := Z.of_nat (List.length im).

(** [image.crop((left, upper, right, lower))] on a box inside the picture;
    a box whose right edge lies left of its left edge (or lower above
    upper) is refused. *)
Definition Image_crop (im : Image) (box : Z * Z * Z * Z) : M Image :=
  let '(x0, y0, x1, y1) := box in
  if (x1 <? x0) || (y1 <? y0) then raise ValueError
  else ret (map (fun row => take (Z.to_nat (x1 - x0)) (drop (Z.to_nat x0) row))
                (take (Z.to_nat (y1 - y0)) (drop (Z.to_nat y0) im))).

(** [ImageOps.crop(image, border)] with a 4-tuple border. *)
Definition ImageOps_crop (im : Image) (border : Z * Z * Z * Z) : M Image :=
  let '(bl, bt, br, bb) := border in
  Image_crop im (bl, bt, width im - br, height im - bb).

(** [ImageOps.mirror(image)]: flip left to right. *)
Definition ImageOps_mirror (im : Image) : Image := map (@rev Pixel) im.

(** [ImageTk.PhotoImage(image=im)]: needs a live Tk root. *)
Definition ImageTk_PhotoImage (im : Image) : M Image :=
  let* w := get in
  if master_alive w then ret im else raise RuntimeError.

(** [self.panel.imgtk = imgtk; self.panel.config(image=imgtk)] *)
Definition panel_show (imgtk : Image) : M unit :=
  let* w := get in
  if master_alive w then modify (set_panel_imgtk (Some imgtk)) else raise TclError.

(** [self.after(ms, callback)] *)
Definition after (ms : Z) (cb : Callback) : M unit :=
  let* w := get in
  if master_alive w then modify (fun w => set_tk true (timers w ++ [(ms, cb)]) w)
  else raise TclError.

(** [cv2.VideoCapture(0)]; [device] tells whether a camera answered. *)
Definition cv2_VideoCapture (device : bool) : VideoCapture :=
  {| isOpened := device |}.

(** [self.vs.read()]; [grabbed] is what the device delivers at this call.
    A capture that is not open delivers nothing. *)
Definition vs_read (grabbed : option Frame) : M (bool * option Frame) :=
  let* w := get in
  if isOpened (vs w) then
    match grabbed with
    | Some frame => ret (true, Some frame)
    | None => ret (false, None)
    end
  else ret (false, None).

(** [self.vs.release()] *)
Definition vs_release : M unit :=
  modify (set_vs {| isOpened := false |}).

(** [cv2.destroyAllWindows()]: the class opens no OpenCV window. *)
Definition cv2_destroyAllWindows : M unit := ret tt.

(** [self.master.destroy()]: destroying the root ends the application and
    drops its timers; Tcl refuses the command on a destroyed application. *)
Definition master_destroy : M unit :=
  let* w := get in
  if master_alive w then modify (set_tk false []) else raise TclError.

(** [cv2.imwrite(path, frame)]: [true] when the file was written.
    [disk_ok] is the operating system's answer to the write. A target in
    a missing folder or on a directory cannot be opened, whatever the
    answer. Writing into a file the process may not read replaces what
    it holds and leaves it unreadable. When the encoder fails after the
    target was opened, the library removes the target. *)
Definition cv2_imwrite (disk_ok : imwrite_answer) (p : os_path.path) (frame : Frame)
    : M bool :=
  let* w := get in
  match fs w !! os_path.path_dir p with
  | None => ret false
  | Some d =>
      match d !! os_path.path_name p with
      | Some SubDir => ret false
      | target =>
          match disk_ok with
          | Encoded =>
              match target with
              | Some UnreadableFile => ret true
              | _ =>
                  modify (set_fs (<[os_path.path_dir p :=
                                    <[os_path.path_name p := ImageFile frame]> d]> (fs w)))
                  >> ret true
              end
          | CannotOpen => ret false
          | EncoderFailed =>
              modify (set_fs (<[os_path.path_dir p :=
                                delete (os_path.path_name p) d]> (fs w)))
              >> ret false
          end
      end
  end.

(* ===================================================================== *)
(** ** The methods of [ImageCaptureFrame] *)
(* ===================================================================== *)

(** The [for i in os.listdir(folder)] loop of [get_current_count]:
    names without a valid extension are skipped ([continue]); every other
    name is opened and the image appended to [imgs]; the images in
    [imgs] are the ones held open when the next is opened. *)
Fixpoint listing_loop (folder : string) (names : list string)
    (imgs : list Image) : M (list Image) :=
  match names with
  | [] => ret imgs
  | i :: rest =>
      let ext := snd (os_path.splitext i) in
      if negb (Py.str_in (Py.lower ext) valid_images) then
        listing_loop folder rest imgs
      else
        let* img := Image_open (List.length imgs) (os_path.join folder i) in
        listing_loop folder rest (imgs ++ [img])
  end.

(** [get_current_count(self, folder)] *)
Definition get_current_count (folder : string) : M Z :=
  let* names := os_listdir folder in
  let* imgs := listing_loop folder names [] in
  ret (Z.of_nat (List.length imgs)).

(** [create_directory(self, folder)]: [None] is Python's [None]. *)
Definition create_directory (answer : makedirs_answer) (folder : string) : M (option Z) :=
  try_except
    (os_makedirs answer folder >>
     print ("Successfully created the directory " +:+ folder) >>
     ret None)
    is_OSError
    (print ("Creation of the directory " +:+ folder +:+ " failed.") >>
     ret (Some (-1))).

(** [video_loop(self)]; [grabbed] is the device's answer to the read. *)
Definition video_loop (grabbed : option Frame) : M unit :=
  let* (ok, frame) := vs_read grabbed in
  (match ok, frame with
   | true, Some frame =>
       let cv2image := cvtColor_BGR2RGB frame in
       modify (set_current_image (Some (Image_fromarray cv2image))) >>
       let* cropped := ImageOps_crop (Image_fromarray cv2image) (200, 0, 200, 0) in
       modify (set_current_image (Some cropped)) >>
       let mirrored := ImageOps_mirror cropped in
       modify (set_current_image (Some mirrored)) >>
       let* imgtk := ImageTk_PhotoImage mirrored in
       panel_show imgtk
   | _, _ => ret tt
   end) >>
  after 30 cb_video_loop.

(** [save_image(self)]; [grabbed] is the device's answer to the read and
    [disk_ok] the operating system's answer to the write. *)
Definition save_image (grabbed : option Frame) (disk_ok : imwrite_answer) : M unit :=
  let* w := get in
  let* n := get_current_count (output_path w) in
  modify (set_count (n + 1)) >>
  let* w := get in
  let new := Py.slice_from (Py.len (Py.str (count w))) current +:+ Py.str (count w) in
  let filename := new +:+ ".jpg" in
  let path := os_path.join (output_path w) filename in
  print ("new save: " +:+ os_path.path_str path) >>
  let* (ret_, frame) := vs_read grabbed in
  match ret_, frame with
  | true, Some frame =>
      let* saved := cv2_imwrite disk_ok path frame in
      print "save successful."
  | _, _ => ret tt
  end.

(** [destructor(self)] *)
Definition destructor : M unit :=
  print "[INFO] closing..." >>
  vs_release >>
  cv2_destroyAllWindows >>
  master_destroy.

(** [__init__(self, parent, output_path)] on a fresh Tk root: [device],
    [permitted] and [grabbed] are the answers of the camera and of the
    operating system. Widget construction has no effect on the state kept
    here. *)
Definition __init__ (device : bool) (answer : makedirs_answer) (grabbed : option Frame)
    (path : string) : M unit :=
  modify (set_vs (cv2_VideoCapture device)) >>
  let* present := os_path_exists path in
  (if negb present then create_directory answer path >> ret tt else ret tt) >>
  modify (set_output_path path) >>
  let* n := get_current_count path in
  modify (set_count (n + 1)) >>
  let* w := get in
  print ("[INFO] current count " +:+ Py.str (count w)) >>
  modify (set_current_image None) >>
  video_loop grabbed.

(** The room for open files of a process started under the usual limit of
    1024 descriptors with its three standard streams open. *)
Definition usual_open_max : nat := 1024 - 3.

(** The process before the object exists: a live Tk root, nothing printed
    but the start-up line, no timers, the usual room for open files
    ([set_open_max] gives it another). *)
Definition boot (disk : gmap string (gmap string Entry)) : World :=
  {| fs := disk; open_max := usual_open_max; stdout := ["[INFO] starting..."]; master_alive := true;
     timers := []; vs := {| isOpened := false |}; output_path := "";
     count := 0; current_image := None; panel_imgtk := None |}.

(** Tk runs a widget callback to its end; an exception that escapes it is
    reported and the event loop goes on with the state reached. *)
Definition callback (m : M unit) (w : World) : World := snd (m w).

(** The directory the session saves into. *)
Definition output_dir (w : World) : option (gmap string Entry) :=
  fs w !! output_path w.

(** [nextNumber]: [get_current_count(output_path) + 1]. *)
Definition nextNumber (folder : string) : M Z :=
  let* n := get_current_count folder in ret (n + 1).

(* ===================================================================== *)
(** ** Measures used in the statements *)
(* ===================================================================== *)

(** An entry of a directory counts when its name has a valid extension. *)
Definition counted (kv : string * Entry) : Prop := has_valid_ext kv.1 = true.

#[local] Instance counted_dec kv : Decision (counted kv).
Proof. unfold counted. apply _. Defined.

(** The number of entries of [d] with a valid extension. *)
Definition valid_count (d : gmap string Entry) : nat := size (filter counted d).

(** The padded decimal numeral of fixed width, digit by digit: the
    character at distance [j] from the right end is the digit
    [(n / 10^j) mod 10]. This is the reading of "zero-padded decimal
    representation" the file names are measured against. *)
Fixpoint zero_padded (digits : nat) (n : Z) : string :=
  match digits with
  | O => EmptyString
  | S k => zero_padded k (n / 10) +:+ String (Py.digit_char (n mod 10)) EmptyString
  end.

(** The number a string of decimal digits denotes. *)
Fixpoint decimal_value_from (acc : Z) (s : string) : Z :=
  match s with
  | EmptyString => acc
  | String a r => decimal_value_from (10 * acc + (Z.of_nat (nat_of_ascii a) - 48)) r
  end.

Definition decimal_value (s : string) : Z := decimal_value_from 0 s.

(** [k] zero characters. *)
Fixpoint zeros (k : nat) : string :=
  match k with
  | O => EmptyString
  | S k' => String "0" (zeros k')
  end.

(** No extension separator and no path separator among the characters. *)
Fixpoint plain (s : string) : bool :=
  match s with
  | EmptyString => true
  | String a r => negb (Ascii.eqb a ".") && negb (Ascii.eqb a "/") && plain r
  end.

(** The state [save_image] reaches before it reads the camera: the count
    is refreshed and the target path printed. *)
Definition announced (k : Z) (w : World) : World :=
  set_stdout
    (stdout w ++
       ["new save: " +:+ os_path.path_str (os_path.join (output_path w) (filename (k + 1)))])
    (set_count (k + 1) w).

(** The state after a write that went through. *)
Definition written (k : Z) (d : gmap string Entry) (frame : Frame) (w : World) : World :=
  set_fs (<[output_path w := <[filename (k + 1) := ImageFile frame]> d]> (fs w))
         (announced k w).

(** The state after a write that failed once the target was open: the
    target is gone. *)
Definition spoiled (k : Z) (d : gmap string Entry) (w : World) : World :=
  set_fs (<[output_path w := delete (filename (k + 1)) d]> (fs w)) (announced k w).

(** The closing line of a save whose read succeeded. *)
Definition reported (w : World) : World :=
  set_stdout (stdout w ++ ["save successful."]) w.

Definition is_subdir (e : option Entry) : bool :=
  match e with Some SubDir => true | _ => false end.

(** The picture the preview shows for a frame: channels reordered, 200
    columns cut on each side, rows reversed. *)
Definition transform (frame : Frame) : Image :=
  ImageOps_mirror
    (map (fun row => take (Z.to_nat (width frame - 200 - 200)) (drop 200 row))
         (cvtColor_BGR2RGB frame)).

(** A run of the Save button: each click with the answers of the camera
    and of the disk. *)
Fixpoint saves (clicks : list (option Frame * bool)) (w : World) : World :=
  match clicks with
  | [] => w
  | (grabbed, disk_ok) :: rest => saves rest (callback (save_image grabbed disk_ok) w)
  end.

(** A run of preview ticks, each with the answer of the camera. *)
Fixpoint ticks (grabs : list (option Frame)) (w : World) : World :=
  match grabs with
  | [] => w
  | grabbed :: rest => ticks rest (callback (video_loop grabbed) w)
  end.

(** A click of Save whose read delivers [frame] and whose write goes
    through. *)
Definition good_click (frame : Frame) : option Frame * bool := (Some frame, true).

(** Every row of the frame has the width of the frame. *)
Definition rectangular (frame : Frame) : Prop :=
  Forall (fun row => Z.of_nat (List.length row) = width frame) frame.

(** One pixel moved from capture order to display order. *)
Definition swap_channels (p : Pixel) : Pixel :=
  let '(b, g, r) := p in (r, g, b).

(** A folder holds nothing but captures numbered [1 .. k]. *)
Definition numbered (k : nat) (d : gmap string Entry) : Prop :=
  size d = k
  ∧ ∀ j e, d !! j = Some e →
      openable e = true ∧ ∃ i, 1 ≤ i ≤ Z.of_nat k ∧ j = filename i.

(* ===================================================================== *)
(** ** Sample worlds *)
(* ===================================================================== *)

(** A one-pixel frame. *)
Definition dot_frame : Frame := [[(Byte.x01, Byte.x02, Byte.x03)]].

(** A frame of one row, 402 pixels wide: two marked pixels in the middle
    of a black row. *)
Definition wide_frame : Frame :=
  [replicate 200 (Byte.x00, Byte.x00, Byte.x00)
   ++ [(Byte.x0a, Byte.x0b, Byte.x0c); (Byte.x01, Byte.x02, Byte.x03)]
   ++ replicate 200 (Byte.x00, Byte.x00, Byte.x00)]%list.

(** A running session on folder ["out"] holding [d]. *)
Definition session (d : gmap string Entry) (shown : option Image) (n : Z) : World :=
  {| fs := {[ "out" := d ]}; open_max := usual_open_max; stdout := [];
     master_alive := true; timers := [];
     vs := {| isOpened := true |}; output_path := "out"; count := n;
     current_image := shown; panel_imgtk := shown |}.

(** A folder with two images, one of them upper-case, a text file, a
    hidden file named [.jpg] and a sub-directory. *)
Definition mixed_images : gmap string Entry :=
  {[ "00000001.jpg" := ImageFile dot_frame; "B.JPG" := ImageFile wide_frame ]}.

Definition mixed_others : gmap string Entry :=
  {[ "notes.txt" := OtherFile; ".jpg" := OtherFile; "sub" := SubDir ]}.

(** A folder with one capture and one [.jpg] file that is not an image. *)
Definition damaged : gmap string Entry :=
  {[ "00000001.jpg" := ImageFile dot_frame; "bad.jpg" := OtherFile ]}.


(** A folder whose first capture was deleted: the second is still there. *)
Definition gapped : gmap string Entry :=
  {[ "00000002.jpg" := ImageFile dot_frame ]}.

(** A frame of two rows, 403 pixels wide, with one marked pixel in each
    row right behind the left margin. *)
Definition marked_frame : Frame :=
  [(replicate 200 (Byte.x00, Byte.x00, Byte.x00)
    ++ [(Byte.x0a, Byte.x0b, Byte.x0c)]
    ++ replicate 202 (Byte.x00, Byte.x00, Byte.x00))%list;
   (replicate 200 (Byte.x00, Byte.x00, Byte.x00)
    ++ [(Byte.x01, Byte.x02, Byte.x03)]
    ++ replicate 202 (Byte.x00, Byte.x00, Byte.x00))%list].

(* ===================================================================== *)
(** ** Proof tools and first checks *)
(* ===================================================================== *)

Ltac exec_unfold :=
  unfold bind, ret, get, modify, raise, try_except in *.

Ltac world_simpl :=
  cbn [fs open_max set_open_max stdout master_alive timers vs output_path count current_image
       panel_imgtk set_fs set_stdout set_tk set_vs set_output_path set_count
       set_current_image set_panel_imgtk fst snd] in *.

Example filename_1 : filename 1 = "00000001.jpg".
Proof. reflexivity. Qed.

Example filename_42 : filename 42 = "00000042.jpg".
Proof. reflexivity. Qed.

Example filename_8_digits : filename 12345678 = "12345678.jpg".
Proof. reflexivity. Qed.

Example filename_9_digits : filename 100000000 = "100000000.jpg".
Proof. reflexivity. Qed.

Example splitext_plain : os_path.splitext "00000001.jpg" = ("00000001", ".jpg").
Proof. reflexivity. Qed.

Example splitext_hidden : os_path.splitext ".jpg" = (".jpg", "").
Proof. reflexivity. Qed.

Example splitext_two_dots : os_path.splitext "a.tar.JPG" = ("a.tar", ".JPG").
Proof. reflexivity. Qed.

Example splitext_dir_dot : os_path.splitext "a.b/c" = ("a.b/c", "").
Proof. reflexivity. Qed.

Example valid_ext_upper : has_valid_ext "IMG.JPG" = true.
Proof. reflexivity. Qed.

Example valid_ext_jpeg : has_valid_ext "photo.jpeg" = false.
Proof. reflexivity. Qed.

Example valid_ext_hidden : has_valid_ext ".jpg" = false.
Proof. reflexivity. Qed.

(* ===================================================================== *)
(** ** Facts about the listing loop and the count *)
(* ===================================================================== *)

Lemma is_OSError_open_error (e : Entry) : is_OSError (open_error e) = true.
Proof. by destruct e. Qed.

Section listing.
Context (folder : string) (w : World) (d : gmap string Entry).
Hypothesis Hdir : fs w !! folder = Some d.

Lemma Image_open_entry (held : nat) (i : string) :
  Image_open held (os_path.join folder i) w =
    if (open_max w <=? held)%nat then (Raised OSError_EMFILE, w)
    else
      match d !! i with
      | Some (ImageFile f) => (Returned (cvtColor_BGR2RGB f), w)
      | Some e => (Raised (open_error e), w)
      | None => (Raised FileNotFoundError, w)
      end.
Proof.
  unfold Image_open, lookup_path; exec_unfold; simpl.
  destruct (open_max w <=? held)%nat; [reflexivity|].
  rewrite Hdir; simpl.
  destruct (d !! i) as [[f| | | |]|]; reflexivity.
Qed.

(** When every counted name of [l] opens and there is room for all of
    them, the loop returns and has appended one image per counted
    name. *)
Lemma listing_loop_returns (l : list (string * Entry)) (imgs : list Image) :
  (∀ i e, (i, e) ∈ l → d !! i = Some e) →
  (∀ i e, (i, e) ∈ l → has_valid_ext i = true → openable e = true) →
  (List.length imgs + List.length (filter counted l) ≤ open_max w)%nat →
  ∃ imgs', listing_loop folder l.*1 imgs w = (Returned imgs', w)
           ∧ List.length imgs' = (List.length imgs + List.length (filter counted l))%nat.
Proof.
  revert imgs. induction l as [|[i e] l IH]; intros imgs Hin Hok Hroom.
  - exists imgs. split; [reflexivity | simpl; lia].
  - assert (Hin' : ∀ i' e', (i', e') ∈ l → d !! i' = Some e')
      by (intros i' e' ?; apply Hin, elem_of_cons; by right).
    assert (Hok' : ∀ i' e', (i', e') ∈ l → has_valid_ext i' = true → openable e' = true)
      by (intros i' e' ?; apply Hok, elem_of_cons; by right).
    cbn [fmap list_fmap fst listing_loop].
    fold (has_valid_ext i).
    rewrite filter_cons in Hroom |- *.
    destruct (has_valid_ext i) eqn:Hext; cbn [negb].
    + rewrite decide_True in Hroom |- * by exact Hext.
      cbn [List.length] in Hroom.
      unfold bind at 1. rewrite Image_open_entry.
      destruct (Nat.leb_spec (open_max w) (List.length imgs)) as [?|_]; [lia|].
      rewrite (Hin i e) by (apply elem_of_cons; by left).
      specialize (Hok i e ltac:(apply elem_of_cons; by left) Hext).
      destruct e as [f| | | |]; try discriminate.
      destruct (IH (imgs ++ [cvtColor_BGR2RGB f])%list Hin' Hok') as (imgs' & Hrun & Hlen).
      { rewrite length_app. simpl. lia. }
      exists imgs'. split; [exact Hrun|].
      rewrite Hlen, length_app. simpl. lia.
    + rewrite decide_False in Hroom |- * by (unfold counted; cbn [fst]; congruence).
      apply IH; assumption.
Qed.

(** When some counted name of [l] does not open, the loop raises the
    error of [Image.open] on such a name, or [OSError] 24 when the room
    runs out before it gets there; nothing has changed. *)
Lemma listing_loop_raises (l : list (string * Entry)) (imgs : list Image) :
  (∀ i e, (i, e) ∈ l → d !! i = Some e) →
  (∃ i e, (i, e) ∈ l ∧ has_valid_ext i = true ∧ openable e = false) →
  ∃ ex, listing_loop folder l.*1 imgs w = (Raised ex, w)
        ∧ is_OSError ex = true
        ∧ (ex = OSError_EMFILE
           ∨ ∃ j e', (j, e') ∈ l ∧ has_valid_ext j = true ∧ openable e' = false
                     ∧ ex = open_error e').
Proof.
  revert imgs. induction l as [|[i e] l IH]; intros imgs Hin (i0 & e0 & Hmem & Hext0 & Hbad).
  - by apply elem_of_nil in Hmem.
  - assert (Hin' : ∀ i' e', (i', e') ∈ l → d !! i' = Some e')
      by (intros i' e' ?; apply Hin, elem_of_cons; by right).
    assert (Hlift : ∀ ex,
              (ex = OSError_EMFILE
               ∨ ∃ j e', (j, e') ∈ l ∧ has_valid_ext j = true ∧ openable e' = false
                         ∧ ex = open_error e') →
              ex = OSError_EMFILE
              ∨ ∃ j e', (j, e') ∈ (i, e) :: l ∧ has_valid_ext j = true
                        ∧ openable e' = false ∧ ex = open_error e').
    { intros ex [->|(j & e' & Hj & ?)]; [by left|].
      right. exists j, e'. split; [apply elem_of_cons; by right | assumption]. }
    assert (Hhere : ∀ ex, has_valid_ext i = true → openable e = false →
              ex = open_error e →
              ex = OSError_EMFILE
              ∨ ∃ j e', (j, e') ∈ (i, e) :: l ∧ has_valid_ext j = true
                        ∧ openable e' = false ∧ ex = open_error e').
    { intros ex H1 H2 ->. right. exists i, e. split; [apply elem_of_cons; by left | done]. }
    cbn [fmap list_fmap fst listing_loop].
    fold (has_valid_ext i).
    destruct (has_valid_ext i) eqn:Hext; cbn [negb].
    + unfold bind at 1. rewrite Image_open_entry.
      destruct (open_max w <=? List.length imgs)%nat;
        [exists OSError_EMFILE; split; [reflexivity|]; split; [reflexivity | by left]|].
      rewrite (Hin i e) by (apply elem_of_cons; by left).
      destruct e as [f| | | |].
      2-5: eexists; (split; [reflexivity|]); (split; [reflexivity|]); by apply Hhere.
      destruct (IH (imgs ++ [cvtColor_BGR2RGB f])%list Hin') as (ex & Hrun & Hos & Hwhich).
      { exists i0, e0. split; [|done].
        apply elem_of_cons in Hmem as [Heq|?]; [|assumption].
        inversion Heq; subst. discriminate. }
      exists ex. split; [exact Hrun|]. split; [exact Hos | by apply Hlift].
    + destruct (IH imgs Hin') as (ex & Hrun & Hos & Hwhich).
      { exists i0, e0. split; [|done].
        apply elem_of_cons in Hmem as [Heq|?]; [|assumption].
        inversion Heq; subst. congruence. }
      exists ex. split; [exact Hrun|]. split; [exact Hos | by apply Hlift].
Qed.

(** When every counted name of [l] opens but there are more of them than
    the process has room for, the loop raises [OSError] 24 at the first
    one that finds no descriptor. *)
Lemma listing_loop_crowded (l : list (string * Entry)) (imgs : list Image) :
  (∀ i e, (i, e) ∈ l → d !! i = Some e) →
  (∀ i e, (i, e) ∈ l → has_valid_ext i = true → openable e = true) →
  (List.length imgs ≤ open_max w)%nat →
  (open_max w < List.length imgs + List.length (filter counted l))%nat →
  listing_loop folder l.*1 imgs w = (Raised OSError_EMFILE, w).
Proof.
  revert imgs. induction l as [|[i e] l IH]; intros imgs Hin Hok Hheld Hroom.
  - simpl in Hroom. lia.
  - assert (Hin' : ∀ i' e', (i', e') ∈ l → d !! i' = Some e')
      by (intros i' e' ?; apply Hin, elem_of_cons; by right).
    assert (Hok' : ∀ i' e', (i', e') ∈ l → has_valid_ext i' = true → openable e' = true)
      by (intros i' e' ?; apply Hok, elem_of_cons; by right).
    cbn [fmap list_fmap fst listing_loop].
    fold (has_valid_ext i).
    rewrite filter_cons in Hroom.
    destruct (has_valid_ext i) eqn:Hext; cbn [negb].
    + rewrite decide_True in Hroom by exact Hext.
      cbn [List.length] in Hroom.
      unfold bind at 1. rewrite Image_open_entry.
      destruct (Nat.leb_spec (open_max w) (List.length imgs)) as [?|Hlt]; [reflexivity|].
      rewrite (Hin i e) by (apply elem_of_cons; by left).
      specialize (Hok i e ltac:(apply elem_of_cons; by left) Hext).
      destruct e as [f| | | |]; try discriminate.
      apply IH; [assumption | assumption | |]; rewrite length_app; simpl; lia.
    + rewrite decide_False in Hroom by (unfold counted; cbn [fst]; congruence).
      apply IH; assumption.
Qed.

End listing.

Lemma length_filter_map_to_list (d : gmap string Entry) :
  List.length (filter counted (map_to_list d)) = valid_count d.
Proof.
  unfold valid_count.
  induction d as [|i x m Hi IH] using map_ind.
  - by rewrite map_to_list_empty, map_filter_empty, map_size_empty.
  - rewrite map_to_list_insert by done. rewrite filter_cons.
    destruct (decide (counted (i, x))) as [Hc|Hc].
    + rewrite map_filter_insert_True by done.
      rewrite map_size_insert_None by (apply map_lookup_filter_None; auto).
      simpl. by rewrite IH.
    + rewrite map_filter_insert_False by done.
      rewrite delete_id by done. exact IH.
Qed.

(** The count when every counted entry opens and there is room to hold
    them all open. *)
Lemma get_current_count_returns (folder : string) (w : World) (d : gmap string Entry) :
  fs w !! folder = Some d →
  (∀ i e, d !! i = Some e → has_valid_ext i = true → openable e = true) →
  (valid_count d ≤ open_max w)%nat →
  get_current_count folder w = (Returned (Z.of_nat (valid_count d)), w).
Proof.
  intros Hdir Hok Hroom.
  unfold get_current_count, os_listdir. exec_unfold. rewrite Hdir.
  destruct (listing_loop_returns folder w d Hdir (map_to_list d) [])
    as (imgs' & Hrun & Hlen).
  - intros i e. apply elem_of_map_to_list.
  - intros i e Hmem. apply Hok. by apply elem_of_map_to_list.
  - rewrite length_filter_map_to_list. simpl. exact Hroom.
  - rewrite Hrun. rewrite Hlen, length_filter_map_to_list. reflexivity.
Qed.

(** The error when some counted entry does not open: the one
    [Image.open] gives on such an entry, or [OSError] 24 when the room
    for open files runs out before the loop reaches one. *)
Lemma get_current_count_raises (folder : string) (w : World) (d : gmap string Entry)
    (i : string) (e : Entry) :
  fs w !! folder = Some d →
  d !! i = Some e → has_valid_ext i = true → openable e = false →
  ∃ ex, get_current_count folder w = (Raised ex, w)
        ∧ is_OSError ex = true
        ∧ (ex = OSError_EMFILE
           ∨ ∃ j e', d !! j = Some e' ∧ has_valid_ext j = true ∧ openable e' = false
                     ∧ ex = open_error e').
Proof.
  intros Hdir Hi Hext Hbad.
  unfold get_current_count, os_listdir. exec_unfold. rewrite Hdir.
  destruct (listing_loop_raises folder w d Hdir (map_to_list d) [])
    as (ex & Hrun & Hex & Hwhich).
  - intros i' e'. apply elem_of_map_to_list.
  - exists i, e. split; [by apply elem_of_map_to_list | done].
  - exists ex. rewrite Hrun. split; [reflexivity|]. split; [exact Hex|].
    destruct Hwhich as [->|(j & e' & Hj & ?)]; [by left|].
    right. exists j, e'. split; [by apply elem_of_map_to_list | assumption].
Qed.

(** The error when every counted entry opens but they are more than the
    process can hold open. *)
Lemma get_current_count_crowded (folder : string) (w : World) (d : gmap string Entry) :
  fs w !! folder = Some d →
  (∀ i e, d !! i = Some e → has_valid_ext i = true → openable e = true) →
  (open_max w < valid_count d)%nat →
  get_current_count folder w = (Raised OSError_EMFILE, w).
Proof.
  intros Hdir Hok Hroom.
  unfold get_current_count, os_listdir. exec_unfold. rewrite Hdir.
  rewrite (listing_loop_crowded folder w d Hdir (map_to_list d) []); [reflexivity| | | |].
  - intros i e. apply elem_of_map_to_list.
  - intros i e Hmem. apply Hok. by apply elem_of_map_to_list.
  - simpl. lia.
  - rewrite length_filter_map_to_list. simpl. exact Hroom.
Qed.

(** A missing folder. *)
Lemma get_current_count_missing (folder : string) (w : World) :
  fs w !! folder = None →
  get_current_count folder w = (Raised FileNotFoundError, w).
Proof.
  intros Hdir. unfold get_current_count, os_listdir. exec_unfold.
  by rewrite Hdir.
Qed.

(** The outcome of the count depends on the file system and on the room
    for open files only, and the count leaves the world as it found
    it. *)
Lemma listing_loop_world (folder : string) (names : list string) (imgs : list Image)
    (w : World) :
  snd (listing_loop folder names imgs w) = w.
Proof.
  revert imgs. induction names as [|i rest IH]; intros imgs; [reflexivity|].
  cbn [listing_loop].
  destruct (negb _); [apply IH|].
  unfold bind at 1, Image_open; exec_unfold.
  destruct (open_max w <=? List.length imgs)%nat; [reflexivity|].
  destruct (lookup_path _ w) as [[f| | | |]|]; try reflexivity. apply IH.
Qed.

Lemma get_current_count_world (folder : string) (w : World) :
  snd (get_current_count folder w) = w.
Proof.
  unfold get_current_count, os_listdir; exec_unfold.
  destruct (fs w !! folder) as [d|]; [|reflexivity].
  pose proof (listing_loop_world folder (map_to_list d).*1 [] w) as H.
  destruct (listing_loop _ _ _ w) as [[imgs|ex] w']; simpl in *; congruence.
Qed.

Lemma listing_loop_fs (folder : string) (names : list string) (imgs : list Image)
    (w1 w2 : World) :
  fs w1 = fs w2 → open_max w1 = open_max w2 →
  fst (listing_loop folder names imgs w1) = fst (listing_loop folder names imgs w2).
Proof.
  intros Hfs Hmax. revert imgs. induction names as [|i rest IH]; intros imgs; [reflexivity|].
  cbn [listing_loop].
  destruct (negb _); [apply IH|].
  unfold bind at 1 2, Image_open, lookup_path; exec_unfold. rewrite Hfs, Hmax.
  destruct (open_max w2 <=? List.length imgs)%nat; [reflexivity|].
  destruct (_ ≫= _) as [[f| | | |]|]; try reflexivity. apply IH.
Qed.

Lemma get_current_count_fs (folder : string) (w1 w2 : World) :
  fs w1 = fs w2 → open_max w1 = open_max w2 →
  fst (get_current_count folder w1) = fst (get_current_count folder w2).
Proof.
  intros Hfs Hmax. unfold get_current_count, os_listdir; exec_unfold. rewrite Hfs.
  destruct (fs w2 !! folder) as [d|]; [|reflexivity].
  pose proof (listing_loop_fs folder (map_to_list d).*1 [] w1 w2 Hfs Hmax) as H.
  pose proof (listing_loop_world folder (map_to_list d).*1 [] w1) as H1.
  pose proof (listing_loop_world folder (map_to_list d).*1 [] w2) as H2.
  destruct (listing_loop _ _ _ w1) as [[imgs1|ex1] w1'],
           (listing_loop _ _ _ w2) as [[imgs2|ex2] w2']; simpl in *; congruence.
Qed.

(** A count that returned has met only openable counted entries, no more
    of them than the process has room for. *)
Lemma get_current_count_Returned_inv (folder : string) (w : World)
    (d : gmap string Entry) (k : Z) :
  fs w !! folder = Some d →
  fst (get_current_count folder w) = Returned k →
  (∀ i e, d !! i = Some e → has_valid_ext i = true → openable e = true)
  ∧ (valid_count d ≤ open_max w)%nat
  ∧ k = Z.of_nat (valid_count d).
Proof.
  intros Hdir Hret.
  assert (Hok : ∀ i e, d !! i = Some e → has_valid_ext i = true → openable e = true).
  { intros i e Hi Hext. destruct (openable e) eqn:Hop; [reflexivity|].
    destruct (get_current_count_raises folder w d i e Hdir Hi Hext Hop) as (ex & Hrun & _).
    rewrite Hrun in Hret. discriminate. }
  assert (Hroom : (valid_count d ≤ open_max w)%nat).
  { destruct (le_lt_dec (valid_count d) (open_max w)) as [?|Hlt]; [assumption|].
    rewrite (get_current_count_crowded folder w d Hdir Hok Hlt) in Hret. discriminate. }
  split; [exact Hok|]. split; [exact Hroom|].
  rewrite (get_current_count_returns folder w d Hdir Hok Hroom) in Hret.
  simpl in Hret. congruence.
Qed.

Lemma valid_count_delete (d : gmap string Entry) (i : string) (e : Entry) :
  d !! i = Some e → has_valid_ext i = true →
  valid_count d = S (valid_count (delete i d)).
Proof.
  intros Hi Hext. unfold valid_count.
  rewrite map_filter_delete.
  assert (Hf : filter counted d !! i = Some e) by (by apply map_lookup_filter_Some).
  rewrite (map_size_delete_Some i (filter counted d)) by eauto.
  assert (size (filter counted d) ≠ 0%nat); [|lia].
  intros H0. apply map_size_empty_inv in H0. rewrite H0 in Hf. by rewrite lookup_empty in Hf.
Qed.

Lemma valid_count_insert_new (d : gmap string Entry) (i : string) (e : Entry) :
  d !! i = None → has_valid_ext i = true →
  valid_count (<[i := e]> d) = S (valid_count d).
Proof.
  intros Hi Hext. unfold valid_count.
  rewrite map_filter_insert_True by exact Hext.
  apply map_size_insert_None, map_lookup_filter_None. by left.
Qed.

(* ===================================================================== *)
(** ** Facts about [str] and the file name *)
(* ===================================================================== *)

Section str_facts.

Lemma append_cons (a : ascii) (s t : string) :
  String a s +:+ t = String a (s +:+ t).
Proof. reflexivity. Qed.

Lemma append_nil_l (t : string) : "" +:+ t = t.
Proof. reflexivity. Qed.

Lemma length_append (s t : string) :
  String.length (s +:+ t) = (String.length s + String.length t)%nat.
Proof.
  induction s as [|a s IH]; [reflexivity|].
  rewrite append_cons. simpl. by rewrite IH.
Qed.

Lemma append_assoc (s t u : string) : (s +:+ t) +:+ u = s +:+ (t +:+ u).
Proof.
  induction s as [|a s IH]; [reflexivity|].
  rewrite !append_cons. by rewrite IH.
Qed.

Lemma str_nonneg_small (n : Z) :
  n < 10 → Py.str_nonneg n = String (Py.digit_char n) EmptyString.
Proof.
  intros Hn. rewrite Py.str_nonneg_equation_1. simpl.
  destruct (Z_lt_dec n 10); [reflexivity | lia].
Qed.

Lemma str_nonneg_big (n : Z) :
  10 ≤ n →
  Py.str_nonneg n =
    Py.str_nonneg (n / 10) +:+ String (Py.digit_char (n mod 10)) EmptyString.
Proof.
  intros Hn. rewrite Py.str_nonneg_equation_1 at 1. simpl.
  destruct (Z_lt_dec n 10); [lia | reflexivity].
Qed.

Lemma length_str_nonneg_pos (n : Z) : (0 < String.length (Py.str_nonneg n))%nat.
Proof.
  destruct (Z_lt_dec n 10).
  - rewrite str_nonneg_small by assumption. simpl. lia.
  - rewrite str_nonneg_big, length_append by lia. simpl. lia.
Qed.

(** A number below [10^(k+1)] prints with at most [k+1] digits. *)
Lemma length_str_nonneg_le (k : nat) (n : Z) :
  n < 10 ^ Z.of_nat (S k) → (String.length (Py.str_nonneg n) ≤ S k)%nat.
Proof.
  revert n. induction k as [|k IH]; intros n Hn.
  - rewrite str_nonneg_small by (simpl in Hn; lia). simpl. lia.
  - destruct (Z_lt_dec n 10).
    + rewrite str_nonneg_small by assumption. simpl. lia.
    + rewrite str_nonneg_big, length_append by lia. simpl.
      assert (n / 10 < 10 ^ Z.of_nat (S k)).
      { apply Z.div_lt_upper_bound; [lia|].
        rewrite (Nat2Z.inj_succ (S k)), Z.pow_succ_r in Hn by lia. lia. }
      specialize (IH (n / 10) ltac:(assumption)). lia.
Qed.

(** A number from [10^k] on prints with more than [k] digits. *)
Lemma length_str_nonneg_gt (k : nat) (n : Z) :
  10 ^ Z.of_nat k ≤ n → (k < String.length (Py.str_nonneg n))%nat.
Proof.
  revert n. induction k as [|k IH]; intros n Hn.
  - apply length_str_nonneg_pos.
  - rewrite Nat2Z.inj_succ, Z.pow_succ_r in Hn by lia.
    assert (0 < 10 ^ Z.of_nat k) by (apply Z.pow_pos_nonneg; lia).
    rewrite str_nonneg_big, length_append by lia. simpl.
    assert (10 ^ Z.of_nat k ≤ n / 10) by (apply Z.div_le_lower_bound; lia).
    specialize (IH (n / 10) ltac:(assumption)). lia.
Qed.

Lemma zero_padded_S (k : nat) (n : Z) :
  zero_padded (S k) n =
    zero_padded k (n / 10) +:+ String (Py.digit_char (n mod 10)) EmptyString.
Proof. reflexivity. Qed.

Lemma zero_padded_0 (k : nat) : zero_padded k 0 = zeros k.
Proof.
  induction k as [|k IH]; [reflexivity|].
  rewrite zero_padded_S. change (0 / 10) with 0. rewrite IH.
  clear IH. induction k as [|k IH]; [reflexivity|].
  cbn [zeros]. rewrite append_cons. by rewrite IH.
Qed.

Lemma zeros_snoc (k : nat) : zeros k +:+ "0" = zeros (S k).
Proof.
  induction k as [|k IH]; [reflexivity|].
  cbn [zeros]. rewrite append_cons. by rewrite IH.
Qed.

(** Below [10^k] the padded numeral is [str] behind enough zeros. *)
Lemma zero_padded_str (k : nat) (n : Z) :
  0 ≤ n < 10 ^ Z.of_nat (S k) →
  zero_padded (S k) n =
    zeros (S k - String.length (Py.str_nonneg n)) +:+ Py.str_nonneg n.
Proof.
  revert n. induction k as [|k IH]; intros n Hn.
  - rewrite str_nonneg_small by (simpl in Hn; lia). simpl.
    rewrite Z.mod_small by (simpl in Hn; lia). reflexivity.
  - rewrite zero_padded_S. destruct (Z_lt_dec n 10).
    + rewrite (str_nonneg_small n) by assumption.
      rewrite (Z.div_small n 10), (Z.mod_small n 10) by lia.
      rewrite zero_padded_0. simpl String.length.
      replace (S (S k) - 1)%nat with (S k) by lia.
      reflexivity.
    + assert (Hq : 0 ≤ n / 10 < 10 ^ Z.of_nat (S k)).
      { split; [apply Z.div_pos; lia|].
        apply Z.div_lt_upper_bound; [lia|].
        rewrite (Nat2Z.inj_succ (S k)), Z.pow_succ_r in Hn by lia. lia. }
      rewrite (IH _ Hq), (str_nonneg_big n), length_append, append_assoc by lia.
      simpl String.length.
      pose proof (length_str_nonneg_le k (n / 10) (proj2 Hq)).
      replace (S (S k) - (String.length (Py.str_nonneg (n / 10)) + 1))%nat
        with (S k - String.length (Py.str_nonneg (n / 10)))%nat by lia.
      reflexivity.
Qed.

Lemma length_zero_padded (k : nat) (n : Z) : String.length (zero_padded k n) = k.
Proof.
  revert n. induction k as [|k IH]; intros n; [reflexivity|].
  rewrite zero_padded_S, length_append, IH. simpl. lia.
Qed.

Lemma decimal_value_from_app (s t : string) (acc : Z) :
  decimal_value_from acc (s +:+ t) = decimal_value_from (decimal_value_from acc s) t.
Proof.
  revert acc. induction s as [|a s IH]; intros acc; [reflexivity|].
  rewrite append_cons. simpl. apply IH.
Qed.

Lemma digit_char_value (d : Z) :
  0 ≤ d < 10 → Z.of_nat (nat_of_ascii (Py.digit_char d)) - 48 = d.
Proof.
  intros Hd. unfold Py.digit_char. rewrite nat_ascii_embedding by lia. lia.
Qed.

(** The padded numeral of width [k] denotes [n mod 10^k]. *)
Lemma decimal_value_zero_padded (k : nat) (n : Z) :
  0 ≤ n → decimal_value (zero_padded k n) = n mod 10 ^ Z.of_nat k.
Proof.
  unfold decimal_value. revert n. induction k as [|k IH]; intros n Hn.
  - simpl. by rewrite Z.mod_1_r.
  - rewrite zero_padded_S, decimal_value_from_app, IH by (apply Z.div_pos; lia).
    cbn [decimal_value_from].
    rewrite digit_char_value by (apply Z.mod_pos_bound; lia).
    rewrite Nat2Z.inj_succ, Z.pow_succ_r by lia.
    rewrite (Z.rem_mul_r n 10 (10 ^ Z.of_nat k)); [lia | lia |].
    apply Z.pow_pos_nonneg; lia.
Qed.

(** The padding that the slice of [current] leaves. *)
Lemma slice_current (s : string) :
  Py.slice_from (Py.len s) current = zeros (8 - String.length s).
Proof.
  unfold Py.slice_from, Py.len.
  destruct (Z.ltb_spec (Z.of_nat (String.length s)) 0) as [?|_]; [lia|].
  rewrite Nat2Z.id. generalize (String.length s). intros L.
  do 9 (destruct L as [|L]; [reflexivity|]). reflexivity.
Qed.

Lemma new_name_eq (n : Z) :
  new_name n = zeros (8 - String.length (Py.str n)) +:+ Py.str n.
Proof. unfold new_name. by rewrite slice_current. Qed.

End str_facts.

(** *** Saved names carry the valid extension *)

Section saved_names.

Lemma plain_app (s t : string) : plain (s +:+ t) = plain s && plain t.
Proof.
  induction s as [|a s IH]; [reflexivity|].
  rewrite append_cons. cbn [plain]. rewrite IH. by rewrite andb_assoc.
Qed.

Lemma plain_zeros (k : nat) : plain (zeros k) = true.
Proof. induction k as [|k IH]; [reflexivity | exact IH]. Qed.

Lemma plain_digit (d : Z) :
  d < 10 → plain (String (Py.digit_char d) EmptyString) = true.
Proof.
  intros Hd. unfold Py.digit_char.
  assert (HL : (Z.to_nat d < 10)%nat) by lia.
  revert HL. generalize (Z.to_nat d). intros L HL.
  do 10 (destruct L as [|L]; [reflexivity|]). lia.
Qed.

Lemma plain_str_nonneg (n : Z) : plain (Py.str_nonneg n) = true.
Proof.
  funelim (Py.str_nonneg n).
  - by apply plain_digit.
  - rewrite plain_app. apply andb_true_intro. split.
    + assumption.
    + apply plain_digit. by apply Z.mod_pos_bound.
Qed.

Lemma plain_str (n : Z) : plain (Py.str n) = true.
Proof.
  unfold Py.str. destruct (n <? 0); [|apply plain_str_nonneg].
  cbn [plain]. by rewrite plain_str_nonneg.
Qed.

Lemma plain_new_name (n : Z) : plain (new_name n) = true.
Proof. by rewrite new_name_eq, plain_app, plain_zeros, plain_str. Qed.

Lemma new_name_nonempty (n : Z) : new_name n ≠ EmptyString.
Proof.
  intros H. apply (f_equal String.length) in H.
  rewrite new_name_eq, length_append in H. simpl in H.
  assert (0 < String.length (Py.str n))%nat; [|lia].
  unfold Py.str. destruct (n <? 0); [simpl; lia | apply length_str_nonneg_pos].
Qed.

Lemma rfind_dot_plain (s t : string) :
  plain s = true → 0 ≤ Py.rfind "." t → Py.rfind "." (s +:+ t) = Py.len s + Py.rfind "." t.
Proof.
  intros Hs Ht. induction s as [|a s IH];
    [rewrite append_nil_l; unfold Py.len; simpl String.length; lia|].
  cbn [plain] in Hs. apply andb_prop in Hs as [_ Hs].
  rewrite append_cons. cbn [Py.rfind]. rewrite (IH Hs).
  unfold Py.len in *. simpl String.length.
  destruct (Z.leb_spec 0 (Z.of_nat (String.length s) + Py.rfind "." t)); lia.
Qed.

Lemma rfind_sep_plain (s t : string) :
  plain s = true → Py.rfind "/" t = -1 → Py.rfind "/" (s +:+ t) = -1.
Proof.
  intros Hs Ht. induction s as [|a s IH]; [exact Ht|].
  cbn [plain] in Hs.
  apply andb_prop in Hs as [Ha Hs]. apply andb_prop in Ha as [_ Ha].
  rewrite append_cons. cbn [Py.rfind]. rewrite (IH Hs). simpl.
  by destruct (Ascii.eqb a "/").
Qed.

Lemma take_chars_app (s t : string) : Py.take_chars (String.length s) (s +:+ t) = s.
Proof.
  induction s as [|a s IH]; [reflexivity|].
  rewrite append_cons. simpl. by rewrite IH.
Qed.

Lemma drop_chars_app (s t : string) : Py.drop_chars (String.length s) (s +:+ t) = t.
Proof.
  induction s as [|a s IH]; [reflexivity|].
  rewrite append_cons. simpl. exact IH.
Qed.

Lemma all_dots_plain (s : string) :
  s ≠ EmptyString → plain s = true → os_path.all_dots s = false.
Proof.
  destruct s as [|a s]; [done|]. intros _ Hs. cbn [plain] in Hs.
  cbn [os_path.all_dots]. by destruct (Ascii.eqb a ".").
Qed.

Lemma rfind_dot_none (e : string) : plain e = true → Py.rfind "." e = -1.
Proof.
  induction e as [|a e IH]; [reflexivity|]. cbn [plain]. intros He.
  apply andb_prop in He as [Ha He]. apply andb_prop in Ha as [Ha _].
  cbn [Py.rfind]. rewrite (IH He). simpl. by destruct (Ascii.eqb a ".").
Qed.

Lemma rfind_sep_none (e : string) : plain e = true → Py.rfind "/" e = -1.
Proof.
  induction e as [|a e IH]; [reflexivity|]. cbn [plain]. intros He.
  apply andb_prop in He as [Ha He]. apply andb_prop in Ha as [_ Ha].
  cbn [Py.rfind]. rewrite (IH He). simpl. by destruct (Ascii.eqb a "/").
Qed.

(** A plain, non-empty stem followed by a dot and a plain suffix splits
    at that dot. *)
Lemma splitext_plain_ext (s e : string) :
  s ≠ EmptyString → plain s = true → plain e = true →
  os_path.splitext (s +:+ String "." e) = (s, String "." e).
Proof.
  intros Hne Hs He. unfold os_path.splitext.
  assert (Hdot : Py.rfind "." (String "." e) = 0)
    by (cbn [Py.rfind]; by rewrite (rfind_dot_none e He)).
  assert (Hsep : Py.rfind "/" (String "." e) = -1)
    by (cbn [Py.rfind]; by rewrite (rfind_sep_none e He)).
  rewrite (rfind_dot_plain s _ Hs) by (rewrite Hdot; lia).
  rewrite (rfind_sep_plain s _ Hs Hsep).
  rewrite Hdot, Z.add_0_r.
  unfold Py.slice_to, Py.slice_from, Py.len.
  destruct (Z.ltb_spec (Z.of_nat (String.length s)) 0) as [?|_]; [lia|].
  rewrite Nat2Z.id, take_chars_app, drop_chars_app.
  change (-1 + 1 <? 0) with false.
  replace (Z.to_nat (-1 + 1)) with 0%nat by reflexivity.
  cbn [Py.drop_chars].
  rewrite (all_dots_plain s Hne Hs).
  destruct (Z.ltb_spec (-1) (Z.of_nat (String.length s))); [reflexivity | lia].
Qed.

(** On such a name the test of the listing loop is the comparison of the
    lower-cased suffix with [.jpg]. *)
Lemma has_valid_ext_plain (s e : string) :
  s ≠ EmptyString → plain s = true → plain e = true →
  has_valid_ext (s +:+ String "." e) = String.eqb (Py.lower (String "." e)) ".jpg".
Proof.
  intros Hne Hs He. unfold has_valid_ext.
  rewrite (splitext_plain_ext s e Hne Hs He). cbn [snd Py.str_in valid_images existsb].
  apply orb_false_r.
Qed.

(** Every name [save_image] builds passes the extension test of the
    listing loop. *)
Lemma filename_has_valid_ext (n : Z) : has_valid_ext (filename n) = true.
Proof.
  unfold filename.
  change ".jpg" with (String "." "jpg").
  rewrite has_valid_ext_plain by auto using new_name_nonempty, plain_new_name.
  reflexivity.
Qed.

End saved_names.

(* ===================================================================== *)
(** ** Facts about [save_image], [video_loop] and [destructor] *)
(* ===================================================================== *)

Section save_facts.
Context (w : World) (k : Z).
Hypothesis Hcount : fst (get_current_count (output_path w) w) = Returned k.

Lemma count_run : get_current_count (output_path w) w = (Returned k, w).
Proof.
  pose proof (get_current_count_world (output_path w) w) as Hw.
  destruct (get_current_count (output_path w) w) as [r w']. simpl in *. congruence.
Qed.

(** The read fails: nothing but the count and the console changes. *)
(** The count opened every entry with the valid extension, so what lies
    under the name of the next capture, if anything, is an image. *)
Lemma count_target_opens (d : gmap string Entry) :
  fs w !! output_path w = Some d →
  ∀ e, d !! filename (k + 1) = Some e → openable e = true.
Proof.
  intros Hdir e He.
  destruct (get_current_count_Returned_inv (output_path w) w d k Hdir Hcount) as (Hok & _).
  exact (Hok _ e He (filename_has_valid_ext _)).
Qed.

Lemma save_image_read_fails (grabbed : option Frame) (disk_ok : imwrite_answer) :
  fst (vs_read grabbed w) = Returned (false, None) →
  save_image grabbed disk_ok w = (Returned tt, announced k w).
Proof.
  intros Hread. unfold save_image. unfold bind at 1, get at 1.
  unfold bind at 1. rewrite count_run.
  unfold vs_read in *. exec_unfold. unfold print. exec_unfold. simpl in *.
  destruct (isOpened (vs w)); [destruct grabbed|]; simpl in *;
    try discriminate; reflexivity.
Qed.

(** The read succeeds: the frame goes to the file named after the fresh
    count when the disk accepts it, and the closing line is printed
    whatever [cv2.imwrite] answered. *)
Lemma save_image_read_ok (d : gmap string Entry) (frame : Frame) (disk_ok : bool) :
  isOpened (vs w) = true →
  output_dir w = Some d →
  save_image (Some frame) disk_ok w =
    (Returned tt,
     reported (if disk_ok && negb (is_subdir (d !! filename (k + 1)))
               then written k d frame w else announced k w)).
Proof.
  intros Hopen Hdir. unfold output_dir in Hdir.
  unfold save_image. unfold bind at 1, get at 1.
  unfold bind at 1. rewrite count_run.
  unfold vs_read, cv2_imwrite, print. exec_unfold. simpl.
  rewrite Hopen. simpl. rewrite Hdir.
  fold (new_name (k + 1)). fold (filename (k + 1)).
  pose proof (count_target_opens d Hdir) as Ht.
  destruct (d !! filename (k + 1)) as [[f| | | |]|];
    try (specialize (Ht _ eq_refl); discriminate);
    destruct disk_ok; reflexivity.
Qed.

(** The same for each of the three answers of the disk. *)
Lemma save_image_read_ok_any (d : gmap string Entry) (frame : Frame)
    (disk_ok : imwrite_answer) :
  isOpened (vs w) = true →
  output_dir w = Some d →
  save_image (Some frame) disk_ok w =
    (Returned tt,
     reported (if is_subdir (d !! filename (k + 1)) then announced k w
               else match disk_ok with
                    | Encoded => written k d frame w
                    | CannotOpen => announced k w
                    | EncoderFailed => spoiled k d w
                    end)).
Proof.
  intros Hopen Hdir. unfold output_dir in Hdir.
  unfold save_image. unfold bind at 1, get at 1.
  unfold bind at 1. rewrite count_run.
  unfold vs_read, cv2_imwrite, print. exec_unfold. simpl.
  rewrite Hopen. simpl. rewrite Hdir.
  fold (new_name (k + 1)). fold (filename (k + 1)).
  pose proof (count_target_opens d Hdir) as Ht.
  destruct (d !! filename (k + 1)) as [[f| | | |]|];
    try (specialize (Ht _ eq_refl); discriminate);
    destruct disk_ok; reflexivity.
Qed.

End save_facts.

(** The count raised: [save_image] stops there, with nothing changed. *)
Lemma save_image_count_raises (w : World) (ex : exn) (grabbed : option Frame)
    (disk_ok : imwrite_answer) :
  fst (get_current_count (output_path w) w) = Raised ex →
  save_image grabbed disk_ok w = (Raised ex, w).
Proof.
  intros Hcount.
  pose proof (get_current_count_world (output_path w) w) as Hw.
  unfold save_image. unfold bind at 1, get at 1. unfold bind at 1.
  destruct (get_current_count (output_path w) w) as [r w']. simpl in *.
  subst. reflexivity.
Qed.

(** [save_image] never touches the Tk root, the camera handle, the output
    path, the displayed image or the room for open files. *)
Lemma save_image_frame_any (w : World) (grabbed : option Frame)
    (disk_ok : imwrite_answer) :
  let w' := callback (save_image grabbed disk_ok) w in
  master_alive w' = master_alive w ∧ vs w' = vs w
  ∧ output_path w' = output_path w ∧ current_image w' = current_image w
  ∧ panel_imgtk w' = panel_imgtk w ∧ timers w' = timers w
  ∧ open_max w' = open_max w.
Proof.
  unfold callback.
  destruct (fst (get_current_count (output_path w) w)) as [k|ex] eqn:Hcount.
  - destruct (output_dir w) as [d|] eqn:Hdir.
    + destruct (isOpened (vs w)) eqn:Hopen; [destruct grabbed as [frame|]|].
      * rewrite (save_image_read_ok_any w k Hcount d frame disk_ok Hopen Hdir).
        destruct (is_subdir _), disk_ok; simpl; auto 10.
      * rewrite (save_image_read_fails w k Hcount None disk_ok);
          [simpl; auto 10 | unfold vs_read; exec_unfold; by rewrite Hopen].
      * rewrite (save_image_read_fails w k Hcount grabbed disk_ok);
          [simpl; auto 10 | unfold vs_read; exec_unfold; by rewrite Hopen].
    + unfold output_dir in Hdir.
      rewrite (get_current_count_missing _ _ Hdir) in Hcount. discriminate.
  - rewrite (save_image_count_raises w ex grabbed disk_ok Hcount). simpl. auto 10.
Qed.

Lemma save_image_frame (w : World) (grabbed : option Frame) (disk_ok : bool) :
  let w' := callback (save_image grabbed disk_ok) w in
  master_alive w' = master_alive w ∧ vs w' = vs w
  ∧ output_path w' = output_path w ∧ current_image w' = current_image w
  ∧ panel_imgtk w' = panel_imgtk w ∧ timers w' = timers w.
Proof.
  destruct (save_image_frame_any w grabbed disk_ok) as (H1 & H2 & H3 & H4 & H5 & H6 & _).
  auto 10.
Qed.

Lemma save_image_open_max (w : World) (grabbed : option Frame) (disk_ok : imwrite_answer) :
  open_max (callback (save_image grabbed disk_ok) w) = open_max w.
Proof. by destruct (save_image_frame_any w grabbed disk_ok) as (_ & _ & _ & _ & _ & _ & H). Qed.

Lemma width_cvtColor (frame : Frame) : width (cvtColor_BGR2RGB frame) = width frame.
Proof.
  destruct frame as [|row rest]; [reflexivity|].
  unfold cvtColor_BGR2RGB, width. cbn [map]. by rewrite List.length_map.
Qed.

Lemma height_cvtColor (frame : Frame) : height (cvtColor_BGR2RGB frame) = height frame.
Proof. unfold cvtColor_BGR2RGB, height. by rewrite List.length_map. Qed.

(** The crop of [video_loop] on a frame at least 400 columns wide. *)
Lemma ImageOps_crop_wide (frame : Frame) (w : World) :
  400 ≤ width frame →
  ImageOps_crop (Image_fromarray (cvtColor_BGR2RGB frame)) (200, 0, 200, 0) w =
    (Returned (map (fun row => take (Z.to_nat (width frame - 200 - 200)) (drop 200 row))
                   (cvtColor_BGR2RGB frame)), w).
Proof.
  intros Hw. unfold ImageOps_crop, Image_crop, Image_fromarray.
  rewrite width_cvtColor, height_cvtColor, Z.sub_0_r.
  destruct (Z.ltb_spec (width frame - 200) 200) as [?|_]; [lia|].
  destruct (Z.ltb_spec (height frame) 0) as [Hh|_];
    [unfold height in Hh; lia|].
  cbn [orb]. unfold ret. do 2 f_equal.
  change (Z.to_nat 0) with 0%nat. change (Z.to_nat 200) with 200%nat.
  rewrite drop_0, take_ge
    by (pose proof (height_cvtColor frame); unfold height in *; lia).
  reflexivity.
Qed.

(** The crop on a narrower frame is refused. *)
Lemma ImageOps_crop_narrow (frame : Frame) (w : World) :
  width frame < 400 →
  ImageOps_crop (Image_fromarray (cvtColor_BGR2RGB frame)) (200, 0, 200, 0) w =
    (Raised ValueError, w).
Proof.
  intros Hw. unfold ImageOps_crop, Image_crop, Image_fromarray.
  rewrite width_cvtColor.
  destruct (Z.ltb_spec (width frame - 200) 200) as [_|?]; [reflexivity | lia].
Qed.

(** One tick on a live window with a wide enough frame: the transformed
    picture becomes the current image and is shown; the next tick is
    armed. *)
Lemma video_loop_shows (w : World) (frame : Frame) :
  isOpened (vs w) = true → master_alive w = true → 400 ≤ width frame →
  video_loop (Some frame) w =
    (Returned tt,
     set_tk true (timers w ++ [(30, cb_video_loop)])
       (set_panel_imgtk (Some (transform frame))
          (set_current_image (Some (transform frame)) w))).
Proof.
  intros Hopen Halive Hwide.
  unfold video_loop, vs_read. exec_unfold. rewrite Hopen.
  rewrite (ImageOps_crop_wide frame _ Hwide).
  unfold ImageTk_PhotoImage, panel_show, after. exec_unfold.
  do 3 (world_simpl; rewrite Halive). reflexivity.
Qed.

(** A tick never touches the file system, the camera handle, the count or
    the output path, and a tick that returns leaves the window alive. *)
Lemma video_loop_frame (w : World) (grabbed : option Frame) :
  let w' := callback (video_loop grabbed) w in
  fs w' = fs w ∧ vs w' = vs w ∧ count w' = count w
  ∧ output_path w' = output_path w ∧ stdout w' = stdout w
  ∧ master_alive w' = master_alive w.
Proof.
  unfold callback, video_loop, vs_read. exec_unfold.
  destruct (isOpened (vs w)); [destruct grabbed as [frame|]|].
  - destruct (Z_lt_dec (width frame) 400) as [Hn|Hn].
    + rewrite (ImageOps_crop_narrow frame _ Hn). world_simpl. auto 10.
    + rewrite (ImageOps_crop_wide frame _ ltac:(lia)).
      unfold ImageTk_PhotoImage, panel_show, after. exec_unfold. world_simpl.
      destruct (master_alive w) eqn:Ha;
        repeat (progress (world_simpl; rewrite ?Ha)); auto 10.
  - unfold after. exec_unfold. world_simpl.
    destruct (master_alive w) eqn:Ha; world_simpl; auto 10.
  - unfold after. exec_unfold. world_simpl.
    destruct (master_alive w) eqn:Ha; world_simpl; auto 10.
Qed.

Lemma video_loop_open_max (w : World) (grabbed : option Frame) :
  open_max (callback (video_loop grabbed) w) = open_max w.
Proof.
  unfold callback, video_loop, vs_read. exec_unfold.
  destruct (isOpened (vs w)); [destruct grabbed as [frame|]|].
  - destruct (Z_lt_dec (width frame) 400) as [Hn|Hn].
    + by rewrite (ImageOps_crop_narrow frame _ Hn).
    + rewrite (ImageOps_crop_wide frame _ ltac:(lia)).
      unfold ImageTk_PhotoImage, panel_show, after. exec_unfold. world_simpl.
      destruct (master_alive w) eqn:Ha;
        repeat (progress (world_simpl; rewrite ?Ha)); reflexivity.
  - unfold after. exec_unfold. world_simpl.
    by destruct (master_alive w).
  - unfold after. exec_unfold. world_simpl.
    by destruct (master_alive w).
Qed.

(** The session [__init__] leaves behind when the folder is there. *)
Lemma init_state (room : nat) (disk : gmap string (gmap string Entry)) (path : string)
    (d : gmap string Entry) (device : bool) (permitted : makedirs_answer)
    (grabbed : option Frame) :
  disk !! path = Some d →
  (∀ i e, d !! i = Some e → has_valid_ext i = true → openable e = true) →
  (valid_count d ≤ room)%nat →
  let w0 := callback (__init__ device permitted grabbed path)
              (set_open_max room (boot disk)) in
  fs w0 = disk ∧ output_path w0 = path ∧ isOpened (vs w0) = device
  ∧ count w0 = Z.of_nat (valid_count d) + 1 ∧ master_alive w0 = true
  ∧ stdout w0 = ["[INFO] starting...";
                 "[INFO] current count " +:+ Py.str (Z.of_nat (valid_count d) + 1)]
  ∧ open_max w0 = room.
Proof.
  intros Hdir Hok Hroom.
  set (wa := set_output_path path
               (set_vs (cv2_VideoCapture device) (set_open_max room (boot disk)))).
  assert (Hcount : get_current_count path wa = (Returned (Z.of_nat (valid_count d)), wa))
    by (apply get_current_count_returns; [exact Hdir | exact Hok | exact Hroom]).
  set (wb := set_current_image None
               (set_stdout (stdout wa ++
                  ["[INFO] current count " +:+ Py.str (Z.of_nat (valid_count d) + 1)])
                  (set_count (Z.of_nat (valid_count d) + 1) wa))).
  assert (Hrun : __init__ device permitted grabbed path (set_open_max room (boot disk))
                 = video_loop grabbed wb).
  { unfold __init__, os_path_exists, print. exec_unfold. cbn [boot fs set_vs set_open_max].
    rewrite Hdir. rewrite bool_decide_eq_true_2 by eauto. cbn [negb].
    fold wa. rewrite Hcount. reflexivity. }
  unfold callback. rewrite Hrun.
  destruct (video_loop_frame wb grabbed) as (H1 & H2 & H3 & H4 & H5 & H6).
  pose proof (video_loop_open_max wb grabbed) as H7.
  unfold callback in *. rewrite H1, H2, H3, H4, H5, H6, H7. simpl. auto 10.
Qed.

(** A save whose read and write succeed, into a folder whose counted
    entries all open and are no more than the process has room for. *)
Lemma save_image_writes (w : World) (d : gmap string Entry) (frame : Frame) :
  output_dir w = Some d →
  isOpened (vs w) = true →
  (∀ i e, d !! i = Some e → has_valid_ext i = true → openable e = true) →
  (valid_count d ≤ open_max w)%nat →
  is_subdir (d !! filename (Z.of_nat (valid_count d) + 1)) = false →
  let w' := callback (save_image (Some frame) true) w in
  output_dir w' = Some (<[filename (Z.of_nat (valid_count d) + 1) := ImageFile frame]> d)
  ∧ isOpened (vs w') = true
  ∧ output_path w' = output_path w
  ∧ count w' = Z.of_nat (valid_count d) + 1
  ∧ open_max w' = open_max w.
Proof.
  intros Hdir Hopen Hok Hroom Hfree.
  pose proof (get_current_count_returns (output_path w) w d Hdir Hok Hroom) as Hcount.
  apply (f_equal fst) in Hcount. cbn [fst] in Hcount.
  unfold callback.
  rewrite (save_image_read_ok w _ Hcount d frame true Hopen Hdir).
  rewrite Hfree. cbn [andb negb].
  unfold output_dir, reported, written, announced. world_simpl.
  rewrite lookup_insert_eq. auto.
Qed.

Lemma usual_open_max_ge : (2 ≤ usual_open_max)%nat.
Proof. apply Nat.leb_le. reflexivity. Qed.

Lemma valid_count_empty : valid_count ∅ = 0%nat.
Proof. unfold valid_count. by rewrite map_filter_empty, map_size_empty. Qed.

Lemma all_open_empty :
  ∀ i e, (∅ : gmap string Entry) !! i = Some e → has_valid_ext i = true → openable e = true.
Proof. intros i e H. by rewrite lookup_empty in H. Qed.

Lemma all_open_insert (d : gmap string Entry) (name : string) (frame : Frame) :
  (∀ i e, d !! i = Some e → has_valid_ext i = true → openable e = true) →
  ∀ i e, <[name := ImageFile frame]> d !! i = Some e →
         has_valid_ext i = true → openable e = true.
Proof.
  intros Hok i e Hi Hext. destruct (decide (name = i)) as [->|Hne].
  - rewrite lookup_insert_eq in Hi. by inversion Hi.
  - rewrite lookup_insert_ne in Hi by done. eauto.
Qed.

Example transform_wide_frame :
  transform wide_frame = [[(Byte.x03, Byte.x02, Byte.x01); (Byte.x0c, Byte.x0b, Byte.x0a)]].
Proof. reflexivity. Qed.

(* ===================================================================== *)
(** ** The numbering of captures *)
(* ===================================================================== *)

(** C1. From an empty output directory: the first [nextNumber] is 1 and the
    first save writes [00000001.jpg]; after that save [nextNumber] is 2;
    three saves whose reads and writes succeed leave exactly
    [00000001.jpg], [00000002.jpg], [00000003.jpg], each holding the frame
    read at its save. *)
Theorem three_saves_from_empty_dir
    (disk0 : gmap string (gmap string Entry)) (path : string)
    (permitted : bool) (g0 : option Frame) (f1 f2 f3 : Frame) :
  let start := boot (<[path := ∅]> disk0) in
  let w0 := callback (__init__ true permitted g0 path) start in
  let w1 := callback (save_image (Some f1) true) w0 in
  let w2 := callback (save_image (Some f2) true) w1 in
  let w3 := callback (save_image (Some f3) true) w2 in
  fst (__init__ true permitted g0 path start) = Returned tt →
  fst (nextNumber path start) = Returned 1
  ∧ count w0 = 1
  ∧ output_dir w1 = Some {[ "00000001.jpg" := ImageFile f1 ]}
  ∧ fst (nextNumber path w1) = Returned 2
  ∧ output_dir w3 =
      Some (<["00000003.jpg" := ImageFile f3]>
              (<["00000002.jpg" := ImageFile f2]>
                 {[ "00000001.jpg" := ImageFile f1 ]})).
Proof.
  intros start w0 w1 w2 w3 _.
  assert (Hstart : fs start !! path = Some ∅) by apply lookup_insert_eq.
  assert (Hv0 : valid_count ∅ = 0%nat) by reflexivity.
  pose proof usual_open_max_ge as Hroom.
  destruct (init_state usual_open_max (<[path := ∅]> disk0) path ∅ true permitted g0
              Hstart all_open_empty ltac:(rewrite Hv0; lia))
    as (Hfs0 & Hpath0 & Hopen0 & Hcount0 & _ & _ & Hmax0).
  change (callback _ _) with w0 in Hfs0, Hpath0, Hopen0, Hcount0, Hmax0.
  assert (Hdir0 : output_dir w0 = Some ∅)
    by (unfold output_dir; rewrite Hfs0, Hpath0; apply lookup_insert_eq).
  (* first save *)
  destruct (save_image_writes w0 ∅ f1 Hdir0 Hopen0 all_open_empty)
    as (Hdir1 & Hopen1 & Hpath1 & _ & Hmax1).
  { rewrite Hv0, Hmax0. lia. }
  { rewrite Hv0. reflexivity. }
  change (callback _ w0) with w1 in Hdir1, Hopen1, Hpath1, Hmax1. rewrite Hv0 in Hdir1.
  change (filename (Z.of_nat 0 + 1)) with "00000001.jpg" in Hdir1.
  set (d1 := <["00000001.jpg" := ImageFile f1]> (∅ : gmap string Entry)) in *.
  assert (Hok1 := all_open_insert ∅ "00000001.jpg" f1 all_open_empty). fold d1 in Hok1.
  assert (Hv1 : valid_count d1 = 1%nat).
  { unfold d1. rewrite valid_count_insert_new; [by rewrite Hv0 | apply lookup_empty | reflexivity]. }
  (* second save *)
  destruct (save_image_writes w1 d1 f2 Hdir1 Hopen1 Hok1)
    as (Hdir2 & Hopen2 & Hpath2 & _ & Hmax2).
  { rewrite Hv1, Hmax1, Hmax0. lia. }
  { rewrite Hv1. change (filename (Z.of_nat 1 + 1)) with "00000002.jpg".
    unfold d1. rewrite lookup_insert_ne by done. by rewrite lookup_empty. }
  change (callback _ w1) with w2 in Hdir2, Hopen2, Hpath2, Hmax2. rewrite Hv1 in Hdir2.
  change (filename (Z.of_nat 1 + 1)) with "00000002.jpg" in Hdir2.
  set (d2 := <["00000002.jpg" := ImageFile f2]> d1) in *.
  assert (Hok2 := all_open_insert d1 "00000002.jpg" f2 Hok1). fold d2 in Hok2.
  assert (Hv2 : valid_count d2 = 2%nat).
  { unfold d2. rewrite valid_count_insert_new; [by rewrite Hv1 | | reflexivity].
    unfold d1. rewrite lookup_insert_ne by done. apply lookup_empty. }
  (* third save *)
  destruct (save_image_writes w2 d2 f3 Hdir2 Hopen2 Hok2) as (Hdir3 & _).
  { rewrite Hv2, Hmax2, Hmax1, Hmax0. lia. }
  { rewrite Hv2. change (filename (Z.of_nat 2 + 1)) with "00000003.jpg".
    unfold d2, d1. rewrite !lookup_insert_ne by done. by rewrite lookup_empty. }
  change (callback _ w2) with w3 in Hdir3. rewrite Hv2 in Hdir3.
  change (filename (Z.of_nat 2 + 1)) with "00000003.jpg" in Hdir3.
  (* the five facts *)
  split; [|split; [|split; [|split]]].
  - unfold nextNumber. exec_unfold.
    rewrite (get_current_count_returns path start ∅ Hstart all_open_empty)
      by (rewrite Hv0; lia).
    by rewrite Hv0.
  - by rewrite Hcount0, Hv0.
  - rewrite Hdir1. unfold d1. by rewrite insert_empty.
  - unfold nextNumber. exec_unfold.
    unfold output_dir in Hdir1. rewrite Hpath1, Hpath0 in Hdir1.
    rewrite (get_current_count_returns path w1 d1 Hdir1 Hok1)
      by (rewrite Hv1, Hmax1, Hmax0; lia).
    by rewrite Hv1.
  - rewrite Hdir3. unfold d2, d1. by rewrite insert_empty.
Qed.

Lemma three_saves_from_empty_dir_witness :
  fst (__init__ true true None "out" (boot (<["out" := ∅]> ∅))) = Returned tt
  ∧ output_dir
      (callback (save_image (Some wide_frame) true)
         (callback (save_image (Some dot_frame) true)
            (callback (save_image (Some dot_frame) true)
               (callback (__init__ true true None "out") (boot (<["out" := ∅]> ∅)))))) =
      Some (<["00000003.jpg" := ImageFile wide_frame]>
              (<["00000002.jpg" := ImageFile dot_frame]>
                 {[ "00000001.jpg" := ImageFile dot_frame ]})).
Proof.
  assert (H : fst (__init__ true true None "out" (boot (<["out" := ∅]> ∅))) = Returned tt)
    by (vm_compute; reflexivity).
  split; [exact H|].
  apply (three_saves_from_empty_dir ∅ "out" true None dot_frame dot_frame wide_frame H).
Defined.




(** C3. Deleting one counted image file lowers [nextNumber]: the number
    follows the count of what is in the folder now, not the highest
    number ever used. *)
Theorem delete_lowers_nextNumber
    (w : World) (folder : string) (d : gmap string Entry)
    (i : string) (f : Frame) (k : Z) :
  fs w !! folder = Some d →
  d !! i = Some (ImageFile f) →
  has_valid_ext i = true →
  fst (nextNumber folder w) = Returned k →
  ∃ k', fst (nextNumber folder (set_fs (<[folder := delete i d]> (fs w)) w)) = Returned k'
        ∧ k' < k ∧ k' = k - 1.
Proof.
  intros Hdir Hi Hext Hnext.
  unfold nextNumber in Hnext. exec_unfold.
  destruct (get_current_count folder w) as [[n|ex] w1] eqn:Hrun; [|discriminate].
  simpl in Hnext. injection Hnext as <-.
  destruct (get_current_count_Returned_inv folder w d n Hdir) as (Hok & Hroom & ->);
    [by rewrite Hrun|].
  set (w' := set_fs (<[folder := delete i d]> (fs w)) w).
  assert (Hdir' : fs w' !! folder = Some (delete i d)) by apply lookup_insert_eq.
  assert (Hok' : ∀ j e, delete i d !! j = Some e → has_valid_ext j = true → openable e = true).
  { intros j e Hj. apply lookup_delete_Some in Hj as [_ Hj]. eauto. }
  exists (Z.of_nat (valid_count (delete i d)) + 1).
  unfold nextNumber. exec_unfold.
  rewrite (valid_count_delete d i _ Hi Hext) in Hroom |- *.
  rewrite (get_current_count_returns folder w' _ Hdir' Hok') by (unfold w'; world_simpl; lia).
  simpl. split; [reflexivity | lia].
Qed.

Lemma delete_lowers_nextNumber_witness :
  ∃ k', fst (nextNumber "out"
               (set_fs (<["out" := delete "00000001.jpg"
                                     ({[ "00000001.jpg" := ImageFile dot_frame;
                                         "00000002.jpg" := ImageFile dot_frame ]}
                                        : gmap string Entry)]>
                          (fs (session {[ "00000001.jpg" := ImageFile dot_frame;
                                          "00000002.jpg" := ImageFile dot_frame ]} None 3)))
                       (session {[ "00000001.jpg" := ImageFile dot_frame;
                                   "00000002.jpg" := ImageFile dot_frame ]} None 3)))
        = Returned k'
        ∧ k' < 3 ∧ k' = 3 - 1.
Proof.
  apply (delete_lowers_nextNumber
           (session {[ "00000001.jpg" := ImageFile dot_frame;
                       "00000002.jpg" := ImageFile dot_frame ]} None 3)
           "out" _ "00000001.jpg" dot_frame 3).
  - reflexivity.
  - reflexivity.
  - reflexivity.
  - vm_compute. reflexivity.
Defined.

(* ===================================================================== *)
(** ** Entries that do not open *)
(* ===================================================================== *)




(* ===================================================================== *)
(** ** What a save reports and what it leaves on disk *)
(* ===================================================================== *)

(** After a successful read the last line printed is the success line,
    whatever [cv2.imwrite] answered: [saved] is never looked at. *)
Lemma save_prints_success_regardless
    (w : World) (d : gmap string Entry) (k : Z) (frame : Frame) (disk_ok : bool) :
  output_dir w = Some d →
  isOpened (vs w) = true →
  fst (get_current_count (output_path w) w) = Returned k →
  stdout (callback (save_image (Some frame) disk_ok) w) =
    (stdout w
     ++ ["new save: " +:+ os_path.path_str (os_path.join (output_path w) (filename (k + 1)));
         "save successful."])%list.
Proof.
  intros Hdir Hopen Hcount. unfold callback.
  rewrite (save_image_read_ok w k Hcount d frame disk_ok Hopen Hdir).
  destruct (disk_ok && _); unfold reported, written, announced; world_simpl;
    by rewrite <- app_assoc.
Qed.

(** C5 at the failing input: the frame was read, the disk refused the
    write, no file exists, and the console says the save succeeded. *)
Theorem failed_write_reported_as_success :
  output_dir (callback (save_image (Some dot_frame) false) (session ∅ None 1)) = Some ∅
  ∧ stdout (callback (save_image (Some dot_frame) false) (session ∅ None 1)) =
      ["new save: out/00000001.jpg"; "save successful."]
  ∧ stdout (callback (save_image (Some dot_frame) true) (session ∅ None 1)) =
      ["new save: out/00000001.jpg"; "save successful."].
Proof. vm_compute. auto. Qed.

(** C6. A save whose frame read fails creates no file, and a following
    count gives what it gave before. *)
Theorem failed_read_writes_nothing
    (w : World) (grabbed : option Frame) (disk_ok : bool) :
  fst (vs_read grabbed w) = Returned (false, None) →
  fs (callback (save_image grabbed disk_ok) w) = fs w
  ∧ ∀ folder,
      fst (get_current_count folder (callback (save_image grabbed disk_ok) w)) =
      fst (get_current_count folder w).
Proof.
  intros Hread.
  assert (Hfs : fs (callback (save_image grabbed disk_ok) w) = fs w).
  { unfold callback.
    destruct (fst (get_current_count (output_path w) w)) as [k|ex] eqn:Hcount.
    - by rewrite (save_image_read_fails w k Hcount grabbed disk_ok Hread).
    - by rewrite (save_image_count_raises w ex grabbed disk_ok Hcount). }
  split; [exact Hfs|].
  intros folder. apply get_current_count_fs; [exact Hfs | apply save_image_open_max].
Qed.

Lemma failed_read_writes_nothing_witness :
  fs (callback (save_image None true) (session mixed_images None 1)) =
    fs (session mixed_images None 1)
  ∧ ∀ folder,
      fst (get_current_count folder
             (callback (save_image None true) (session mixed_images None 1))) =
      fst (get_current_count folder (session mixed_images None 1)).
Proof.
  apply (failed_read_writes_nothing (session mixed_images None 1) None true).
  reflexivity.
Defined.

(** C7. The preview tick shows the transformed frame (channels reordered,
    200 columns cut on each side, mirrored); a save that follows reads a
    new frame and stores that frame as it came from the camera, and the
    displayed image plays no part in it. *)
Theorem save_stores_fresh_untransformed_frame
    (w : World) (d : gmap string Entry) (k : Z) (shown frame : Frame) :
  output_dir w = Some d →
  isOpened (vs w) = true →
  master_alive w = true →
  400 < width shown →
  fst (get_current_count (output_path w) w) = Returned k →
  is_subdir (d !! filename (k + 1)) = false →
  current_image (callback (video_loop (Some shown)) w) = Some (transform shown)
  ∧ panel_imgtk (callback (video_loop (Some shown)) w) = Some (transform shown)
  ∧ lookup_path (os_path.join (output_path w) (filename (k + 1)))
      (callback (save_image (Some frame) true) (callback (video_loop (Some shown)) w)) =
      Some (ImageFile frame)
  ∧ current_image
      (callback (save_image (Some frame) true) (callback (video_loop (Some shown)) w)) =
      Some (transform shown).
Proof.
  intros Hdir Hopen Halive Hwide Hcount Hfree.
  set (wt := callback (video_loop (Some shown)) w).
  assert (Hwt : wt = set_tk true (timers w ++ [(30, cb_video_loop)])
                       (set_panel_imgtk (Some (transform shown))
                          (set_current_image (Some (transform shown)) w))).
  { unfold wt, callback.
    by rewrite (video_loop_shows w shown Hopen Halive (Z.lt_le_incl _ _ Hwide)). }
  assert (Hcount' : fst (get_current_count (output_path wt) wt) = Returned k).
  { rewrite <- Hcount. rewrite Hwt. world_simpl. by apply get_current_count_fs. }
  assert (Hdir' : output_dir wt = Some d) by (by rewrite Hwt).
  assert (Hopen' : isOpened (vs wt) = true) by (by rewrite Hwt).
  split; [by rewrite Hwt|]. split; [by rewrite Hwt|].
  unfold callback.
  rewrite (save_image_read_ok wt k Hcount' d frame true Hopen' Hdir').
  rewrite Hfree. cbn [andb negb].
  unfold reported, written, announced, lookup_path. world_simpl.
  split.
  - replace (output_path wt) with (output_path w) by (by rewrite Hwt).
    cbn [os_path.join os_path.path_dir os_path.path_name].
    rewrite lookup_insert_eq. cbn [mbind option_bind]. apply lookup_insert_eq.
  - by rewrite Hwt.
Qed.

Lemma save_stores_fresh_untransformed_frame_witness :
  current_image (callback (video_loop (Some wide_frame)) (session ∅ None 1)) =
    Some (transform wide_frame)
  ∧ panel_imgtk (callback (video_loop (Some wide_frame)) (session ∅ None 1)) =
      Some (transform wide_frame)
  ∧ lookup_path (os_path.join "out" (filename (0 + 1)))
      (callback (save_image (Some wide_frame) true)
         (callback (video_loop (Some wide_frame)) (session ∅ None 1))) =
      Some (ImageFile wide_frame)
  ∧ current_image
      (callback (save_image (Some wide_frame) true)
         (callback (video_loop (Some wide_frame)) (session ∅ None 1))) =
      Some (transform wide_frame).
Proof.
  apply (save_stores_fresh_untransformed_frame (session ∅ None 1) ∅ 0 wide_frame wide_frame).
  - reflexivity.
  - reflexivity.
  - reflexivity.
  - vm_compute. reflexivity.
  - vm_compute. reflexivity.
  - reflexivity.
Defined.

(** C10. Every save refreshes the cached count before it reads the
    camera: when the read fails and no file is written, [count] still
    becomes the fresh count plus one. *)
Theorem failed_read_still_refreshes_count
    (w : World) (k : Z) (grabbed : option Frame) (disk_ok : bool) :
  fst (get_current_count (output_path w) w) = Returned k →
  fst (vs_read grabbed w) = Returned (false, None) →
  count (callback (save_image grabbed disk_ok) w) = k + 1
  ∧ fs (callback (save_image grabbed disk_ok) w) = fs w.
Proof.
  intros Hcount Hread. unfold callback.
  by rewrite (save_image_read_fails w k Hcount grabbed disk_ok Hread).
Qed.

Lemma failed_read_still_refreshes_count_witness :
  count (session mixed_images None 7) = 7
  ∧ count (callback (save_image None true) (session mixed_images None 7)) = 2 + 1
  ∧ fs (callback (save_image None true) (session mixed_images None 7)) =
      fs (session mixed_images None 7).
Proof.
  split; [reflexivity|].
  apply (failed_read_still_refreshes_count (session mixed_images None 7) 2 None true).
  - vm_compute. reflexivity.
  - reflexivity.
Defined.

(* ===================================================================== *)
(** ** The shape of the file name *)
(* ===================================================================== *)

(** The name as a function of the number alone. For [1 <= n < 10^8] it
    is the 8-digit zero-padded decimal numeral of [n] followed by [.jpg];
    from [10^8] on the slice of ["00000000"] is empty and the base name
    is the plain numeral of [n]. *)
Lemma filename_by_range (n : Z) :
  (1 ≤ n < 10 ^ 8 →
   filename n = zero_padded 8 n +:+ ".jpg"
   ∧ String.length (new_name n) = 8%nat
   ∧ decimal_value (new_name n) = n)
  ∧ (10 ^ 8 ≤ n →
     filename n = Py.str n +:+ ".jpg"
     ∧ (8 < String.length (new_name n))%nat).
Proof.
  split.
  - intros Hn.
    assert (Hstr : Py.str n = Py.str_nonneg n).
    { unfold Py.str. destruct (Z.ltb_spec n 0); [lia | reflexivity]. }
    assert (Hname : new_name n = zero_padded 8 n).
    { rewrite new_name_eq, Hstr. symmetry. apply (zero_padded_str 7). simpl. lia. }
    unfold filename. rewrite Hname. split; [reflexivity|]. split.
    + apply length_zero_padded.
    + rewrite decimal_value_zero_padded by lia. apply Z.mod_small. simpl. lia.
  - intros Hn.
    assert (Hstr : Py.str n = Py.str_nonneg n).
    { unfold Py.str. destruct (Z.ltb_spec n 0); [lia | reflexivity]. }
    assert (Hlen : (8 < String.length (Py.str n))%nat).
    { rewrite Hstr. apply length_str_nonneg_gt. simpl. lia. }
    assert (Hname : new_name n = Py.str n).
    { rewrite new_name_eq.
      replace (8 - String.length (Py.str n))%nat with 0%nat by lia. reflexivity. }
    unfold filename. rewrite Hname. split; [reflexivity | exact Hlen].
Qed.

(** C8. Every save names its file by the 8-digit zero-padded decimal
    numeral of its sequence number, followed by [.jpg]. The sequence
    number is the fresh count plus one, and the count holds every counted
    file open at the same time, so it returns no more than the process
    has room to hold open; with that room below [10^8 - 1] every number a
    save can be given lies in [1 .. 10^8 - 1], where the base name has
    exactly 8 characters, zeros on the left, and reads back as the
    number. The file is written and announced under that name. *)
Theorem save_writes_eight_digit_name
    (w : World) (d : gmap string Entry) (k : Z) (frame : Frame) :
  Z.of_nat (open_max w) + 1 < 10 ^ 8 →
  output_dir w = Some d →
  isOpened (vs w) = true →
  fst (get_current_count (output_path w) w) = Returned k →
  is_subdir (d !! filename (k + 1)) = false →
  1 ≤ k + 1 < 10 ^ 8
  ∧ count (callback (save_image (Some frame) true) w) = k + 1
  ∧ filename (k + 1) = zero_padded 8 (k + 1) +:+ ".jpg"
  ∧ String.length (zero_padded 8 (k + 1)) = 8%nat
  ∧ decimal_value (zero_padded 8 (k + 1)) = k + 1
  ∧ lookup_path (os_path.join (output_path w) (zero_padded 8 (k + 1) +:+ ".jpg"))
      (callback (save_image (Some frame) true) w) = Some (ImageFile frame)
  ∧ stdout (callback (save_image (Some frame) true) w) =
      (stdout w ++
       ["new save: " +:+
        os_path.path_str (os_path.join (output_path w) (zero_padded 8 (k + 1) +:+ ".jpg"));
        "save successful."])%list.
Proof.
  intros Hroom Hdir Hopen Hcount Hfree.
  destruct (get_current_count_Returned_inv (output_path w) w d k Hdir Hcount)
    as (_ & Hfits & Hk).
  assert (Hn : 1 ≤ k + 1 < 10 ^ 8) by lia.
  destruct (proj1 (filename_by_range (k + 1)) Hn) as (Hname & Hlen & Hval).
  assert (Hnew : new_name (k + 1) = zero_padded 8 (k + 1)).
  { unfold filename in Hname. revert Hname. generalize (new_name (k + 1)) as s.
    intros s Hs.
    assert (Hl : String.length s = String.length (zero_padded 8 (k + 1))).
    { apply (f_equal String.length) in Hs. rewrite !length_append in Hs. lia. }
    clear - Hs Hl. revert Hs Hl. generalize (zero_padded 8 (k + 1)) as t.
    induction s as [|a s IH]; intros [|b t] Hs Hl; try discriminate; [reflexivity|].
    rewrite !append_cons in Hs. injection Hs as -> Hs. f_equal.
    apply IH; [exact Hs | by injection Hl]. }
  split; [exact Hn|].
  unfold callback.
  rewrite (save_image_read_ok w k Hcount d frame true Hopen Hdir).
  rewrite Hfree. cbn [andb negb].
  unfold reported, written, announced, lookup_path. world_simpl.
  rewrite <- Hname, <- Hnew.
  split; [reflexivity|]. split; [reflexivity|]. split; [exact Hlen|]. split; [exact Hval|].
  split.
  - cbn [os_path.join os_path.path_dir os_path.path_name].
    rewrite lookup_insert_eq. cbn [mbind option_bind]. apply lookup_insert_eq.
  - by rewrite <- app_assoc.
Qed.

Lemma save_writes_eight_digit_name_witness :
  1 ≤ 2 + 1 < 10 ^ 8
  ∧ count (callback (save_image (Some dot_frame) true) (session mixed_images None 1)) = 2 + 1
  ∧ filename (2 + 1) = zero_padded 8 (2 + 1) +:+ ".jpg"
  ∧ String.length (zero_padded 8 (2 + 1)) = 8%nat
  ∧ decimal_value (zero_padded 8 (2 + 1)) = 2 + 1
  ∧ lookup_path (os_path.join (output_path (session mixed_images None 1))
                   (zero_padded 8 (2 + 1) +:+ ".jpg"))
      (callback (save_image (Some dot_frame) true) (session mixed_images None 1)) =
      Some (ImageFile dot_frame)
  ∧ stdout (callback (save_image (Some dot_frame) true) (session mixed_images None 1)) =
      (stdout (session mixed_images None 1) ++
       ["new save: " +:+
        os_path.path_str (os_path.join (output_path (session mixed_images None 1))
                            (zero_padded 8 (2 + 1) +:+ ".jpg"));
        "save successful."])%list.
Proof.
  apply (save_writes_eight_digit_name (session mixed_images None 1) mixed_images 2 dot_frame).
  - vm_compute. reflexivity.
  - reflexivity.
  - reflexivity.
  - vm_compute. reflexivity.
  - vm_compute. reflexivity.
Defined.

(* ===================================================================== *)
(** ** Teardown *)
(* ===================================================================== *)

Lemma saves_alive (clicks : list (option Frame * bool)) (w : World) :
  master_alive (saves clicks w) = master_alive w.
Proof.
  revert w. induction clicks as [|[grabbed disk_ok] rest IH]; intros w; [reflexivity|].
  cbn [saves]. rewrite IH.
  by destruct (save_image_frame w grabbed disk_ok) as (H & _).
Qed.

(** [destructor] on a live window. *)
Lemma destructor_live (w : World) :
  master_alive w = true →
  destructor w =
    (Returned tt,
     set_tk false []
       (set_vs {| isOpened := false |}
          (set_stdout (stdout w ++ ["[INFO] closing..."]) w))).
Proof.
  intros Halive.
  unfold destructor, print, vs_release, cv2_destroyAllWindows, master_destroy.
  exec_unfold. world_simpl. rewrite Halive. reflexivity.
Qed.

(** [destructor] on a destroyed window: the camera is released again,
    then destroying the root is refused. *)
Lemma destructor_destroyed (w : World) :
  master_alive w = false →
  destructor w =
    (Raised TclError,
     set_vs {| isOpened := false |}
       (set_stdout (stdout w ++ ["[INFO] closing..."]) w)).
Proof.
  intros Hdead.
  unfold destructor, print, vs_release, cv2_destroyAllWindows, master_destroy.
  exec_unfold. world_simpl. rewrite Hdead. reflexivity.
Qed.

(** C9, as the claim states it, fails: a second call of the destructor
    does not complete; [self.master.destroy()] raises on the root that the
    first call destroyed. *)
Lemma second_destructor_raises :
  fst (destructor (session ∅ None 1)) = Returned tt
  ∧ fst (destructor (callback destructor (session ∅ None 1))) = Raised TclError.
Proof. vm_compute. auto. Qed.

(** C9, amended. After any number of saves the destructor releases the
    camera and returns, whether or not the device was ever open. Releasing
    is idempotent: in a second call the release step itself returns and
    the device stays released; that call then raises [TclError] when it
    destroys the root again. *)
Theorem destructor_releases_camera
    (w : World) (clicks : list (option Frame * bool)) :
  master_alive w = true →
  fst (destructor (saves clicks w)) = Returned tt
  ∧ isOpened (vs (callback destructor (saves clicks w))) = false
  ∧ fst ((print "[INFO] closing..." >> vs_release)
           (callback destructor (saves clicks w))) = Returned tt
  ∧ isOpened (vs (callback destructor (callback destructor (saves clicks w)))) = false
  ∧ fst (destructor (callback destructor (saves clicks w))) = Raised TclError.
Proof.
  intros Halive.
  assert (Ha : master_alive (saves clicks w) = true) by (by rewrite saves_alive).
  unfold callback. rewrite (destructor_live _ Ha). world_simpl.
  rewrite destructor_destroyed by reflexivity. world_simpl.
  repeat split; reflexivity.
Qed.

Lemma destructor_releases_camera_witness :
  fst (destructor (saves [(Some dot_frame, true); (None, true)] (session ∅ None 1))) =
    Returned tt
  ∧ isOpened (vs (callback destructor
                    (saves [(Some dot_frame, true); (None, true)] (session ∅ None 1)))) = false
  ∧ fst ((print "[INFO] closing..." >> vs_release)
           (callback destructor
              (saves [(Some dot_frame, true); (None, true)] (session ∅ None 1)))) =
      Returned tt
  ∧ isOpened (vs (callback destructor (callback destructor
                    (saves [(Some dot_frame, true); (None, true)] (session ∅ None 1))))) =
      false
  ∧ fst (destructor (callback destructor
                       (saves [(Some dot_frame, true); (None, true)] (session ∅ None 1)))) =
      Raised TclError.
Proof.
  apply (destructor_releases_camera (session ∅ None 1)
           [(Some dot_frame, true); (None, true)]).
  reflexivity.
Defined.

(* ===================================================================== *)
(** ** Creating the output folder and starting the session *)
(* ===================================================================== *)




(** [create_directory] when the operating system makes the folder alone or
    refuses before anything is made. *)
Lemma create_directory_run (w : World) (permitted : bool) (folder : string) :
  create_directory permitted folder w =
    match fs w !! folder with
    | None =>
        if permitted then
          (Returned None,
           set_stdout (stdout w ++ ["Successfully created the directory " +:+ folder])
             (set_fs (<[folder := ∅]> (fs w)) w))
        else
          (Returned (Some (-1)),
           set_stdout (stdout w ++ ["Creation of the directory " +:+ folder +:+ " failed."]) w)
    | Some _ =>
        (Returned (Some (-1)),
         set_stdout (stdout w ++ ["Creation of the directory " +:+ folder +:+ " failed."]) w)
    end.
Proof.
  unfold create_directory, os_makedirs, print. exec_unfold.
  destruct (fs w !! folder) as [d|]; [reflexivity|].
  destruct permitted; reflexivity.
Qed.

(** [create_directory] for every answer of the operating system. *)
Lemma create_directory_run_any (w : World) (answer : makedirs_answer) (folder : string) :
  create_directory answer folder w =
    match fs w !! folder, answer with
    | None, Made above =>
        (Returned None,
         set_stdout (stdout w ++ ["Successfully created the directory " +:+ folder])
           (set_fs (<[folder := ∅]> (make_above above folder (fs w))) w))
    | None, Refused above =>
        (Returned (Some (-1)),
         set_stdout (stdout w ++ ["Creation of the directory " +:+ folder +:+ " failed."])
           (set_fs (make_above above folder (fs w)) w))
    | None, Rejected => (Raised ValueError, w)
    | Some _, _ =>
        (Returned (Some (-1)),
         set_stdout (stdout w ++ ["Creation of the directory " +:+ folder +:+ " failed."]) w)
    end.
Proof.
  unfold create_directory, os_makedirs, print. exec_unfold.
  destruct (fs w !! folder) as [d|]; [reflexivity|].
  destruct answer; reflexivity.
Qed.





(** A refusal part of the way leaves the folder above behind. *)
Example refused_makedirs_leaves_parent :
  fs (snd (create_directory (Refused ["data"]) "data/out" (set_fs ∅ (session ∅ None 1)))) =
    {[ "data" := ∅ ]}.
Proof. reflexivity. Qed.

(** [__init__] up to the count: the capture is stored, the folder is made
    when it is missing, and the count is taken on the path given. *)
Lemma init_run (w : World) (path : string) (device : bool) (answer : makedirs_answer)
    (grabbed : option Frame) :
  is_Some (fs w !! path) ∨ answer ≠ Rejected →
  __init__ device answer grabbed path w =
    match
      get_current_count path
        (set_output_path path
           (match fs w !! path with
            | Some _ => set_vs (cv2_VideoCapture device) w
            | None => snd (create_directory answer path
                             (set_vs (cv2_VideoCapture device) w))
            end))
    with
    | (Returned n, w') =>
        video_loop grabbed
          (set_current_image None
             (set_stdout (stdout w' ++ ["[INFO] current count " +:+ Py.str (n + 1)])
                (set_count (n + 1) w')))
    | (Raised ex, w') => (Raised ex, w')
    end.
Proof.
  intros Hcase.
  unfold __init__, os_path_exists, print.
  unfold bind at 1, modify at 1. unfold bind at 1, get at 1, ret at 1.
  unfold bind at 1. world_simpl.
  destruct (fs w !! path) as [d|] eqn:Hdir.
  - rewrite bool_decide_eq_true_2 by eauto. cbn [negb].
    exec_unfold. world_simpl.
    destruct (get_current_count path _) as [[n|ex] w']; reflexivity.
  - rewrite bool_decide_eq_false_2 by (intros [? ?]; discriminate). cbn [negb].
    unfold bind at 1 2.
    rewrite create_directory_run_any. world_simpl. rewrite Hdir.
    destruct answer;
      [| | destruct Hcase as [[d Hd]|Hne]; [discriminate | by destruct Hne]];
      exec_unfold; world_simpl;
      destruct (get_current_count path _) as [[n|ex] w']; reflexivity.
Qed.



(** X4. When the output folder is missing and can be made, [__init__]
    creates it empty and starts the numbering at 1; with no frame at the
    first tick it returns. *)
Theorem init_creates_missing_folder
    (disk : gmap string (gmap string Entry)) (path : string)
    (device : bool) (grabbed : option Frame) :
  disk !! path = None →
  fs (callback (__init__ device true grabbed path) (boot disk)) = <[path := ∅]> disk
  ∧ output_path (callback (__init__ device true grabbed path) (boot disk)) = path
  ∧ count (callback (__init__ device true grabbed path) (boot disk)) = 1
  ∧ stdout (callback (__init__ device true grabbed path) (boot disk)) =
      ["[INFO] starting..."; "Successfully created the directory " +:+ path;
       "[INFO] current count 1"]
  ∧ fst (__init__ device true None path (boot disk)) = Returned tt.
Proof.
  intros Hmiss. unfold callback. rewrite !init_run by (right; discriminate).
  cbn [boot fs].
  rewrite !Hmiss, !create_directory_run.
  world_simpl. cbn [boot fs]. rewrite Hmiss. world_simpl.
  rewrite (get_current_count_returns path _ ∅);
    [| world_simpl; apply lookup_insert_eq | apply all_open_empty
     | rewrite valid_count_empty; lia].
  match goal with |- context [video_loop grabbed ?w] =>
    destruct (video_loop_frame w grabbed) as (H1 & H2 & H3 & H4 & H5 & H6) end.
  unfold callback in *. rewrite H1, H3, H4, H5. world_simpl.
  do 4 (split; [reflexivity|]).
  unfold video_loop, vs_read, after. exec_unfold. world_simpl.
  by destruct device.
Qed.

Lemma init_creates_missing_folder_witness :
  fs (callback (__init__ true true (Some wide_frame) "out") (boot ∅)) = <["out" := ∅]> ∅
  ∧ output_path (callback (__init__ true true (Some wide_frame) "out") (boot ∅)) = "out"
  ∧ count (callback (__init__ true true (Some wide_frame) "out") (boot ∅)) = 1
  ∧ stdout (callback (__init__ true true (Some wide_frame) "out") (boot ∅)) =
      ["[INFO] starting..."; "Successfully created the directory " +:+ "out";
       "[INFO] current count 1"]
  ∧ fst (__init__ true true None "out" (boot ∅)) = Returned tt.
Proof.
  apply (init_creates_missing_folder ∅ "out" true (Some wide_frame)).
  reflexivity.
Defined.



(* ===================================================================== *)
(** ** File names and numbers *)
(* ===================================================================== *)

Lemma decimal_value_from_zeros (k : nat) : decimal_value_from 0 (zeros k) = 0.
Proof. induction k as [|k IH]; [reflexivity | exact IH]. Qed.

Lemma decimal_value_str_nonneg (n : Z) :
  0 ≤ n → decimal_value (Py.str_nonneg n) = n.
Proof.
  unfold decimal_value. funelim (Py.str_nonneg n); intros Hn.
  - cbn [decimal_value_from]. rewrite digit_char_value; lia.
  - rewrite decimal_value_from_app.
    match goal with IH : 0 ≤ _ → decimal_value_from 0 _ = _ |- _ =>
      rewrite IH by (apply Z.div_pos; lia) end.
    cbn [decimal_value_from].
    rewrite digit_char_value by (apply Z.mod_pos_bound; lia).
    pose proof (Z.div_mod n 10 ltac:(lia)). lia.
Qed.

Lemma decimal_value_new_name (n : Z) : 0 ≤ n → decimal_value (new_name n) = n.
Proof.
  intros Hn. unfold decimal_value.
  rewrite new_name_eq, decimal_value_from_app, decimal_value_from_zeros.
  unfold Py.str. destruct (Z.ltb_spec n 0); [lia|].
  by apply decimal_value_str_nonneg.
Qed.

Lemma append_inj_r (s t u : string) : s +:+ u = t +:+ u → s = t.
Proof.
  intros H.
  assert (Hlen : String.length s = String.length t).
  { apply (f_equal String.length) in H. rewrite !length_append in H. lia. }
  revert t H Hlen. induction s as [|a s IH]; intros [|b t] H Hlen;
    try discriminate; [reflexivity|].
  rewrite !append_cons in H. injection H as -> H.
  f_equal. apply IH; [exact H | by injection Hlen].
Qed.

Lemma filename_inj (n m : Z) : 0 ≤ n → 0 ≤ m → filename n = filename m → n = m.
Proof.
  intros Hn Hm H. unfold filename in H. apply append_inj_r in H.
  rewrite <- (decimal_value_new_name n Hn), <- (decimal_value_new_name m Hm).
  by rewrite H.
Qed.

(** X6. The number can be read back from the name, padded or not: the
    base name built for [n >= 0] denotes [n] in decimal, so two different
    numbers never share a file name. *)
Theorem file_name_determines_number (n m : Z) :
  0 ≤ n → 0 ≤ m →
  decimal_value (new_name n) = n
  ∧ (filename n = filename m → n = m).
Proof.
  intros Hn Hm. split; [by apply decimal_value_new_name | by apply filename_inj].
Qed.

Lemma file_name_determines_number_witness :
  decimal_value (new_name 123456789) = 123456789
  ∧ (filename 123456789 = filename 42 → 123456789 = 42).
Proof.
  apply (file_name_determines_number 123456789 42); lia.
Defined.

(** The text of the path a save prints: the output path, one separator
    unless the path is empty or ends with one, and the file name. *)
Lemma path_str_filename (folder : string) (n : Z) :
  os_path.path_str (os_path.join folder (filename n)) =
    if (String.eqb folder EmptyString || os_path.ends_with_sep folder)%bool
    then folder +:+ filename n
    else folder +:+ "/" +:+ filename n.
Proof.
  unfold os_path.path_str, os_path.join. cbn [os_path.path_dir os_path.path_name].
  assert (Hrel : String.prefix "/" (filename n) = false).
  { unfold filename. pose proof (plain_new_name n) as Hp.
    pose proof (new_name_nonempty n) as Hne.
    destruct (new_name n) as [|a r]; [done|].
    cbn [plain] in Hp. rewrite append_cons. cbn [String.prefix].
    destruct (ascii_dec "/" a) as [<-|Hne']; [discriminate | reflexivity]. }
  by rewrite Hrel.
Qed.

(* ===================================================================== *)
(** ** More about what a save does to the folder *)
(* ===================================================================== *)

Lemma valid_count_insert_same (d : gmap string Entry) (i : string) (e e' : Entry) :
  d !! i = Some e' → has_valid_ext i = true →
  valid_count (<[i := e]> d) = valid_count d.
Proof.
  intros Hi Hext. unfold valid_count.
  rewrite map_filter_insert_True by exact Hext.
  apply map_size_insert_Some. exists e'. by apply map_lookup_filter_Some.
Qed.

(** X7. When the name for the next number is already taken by an image
    (a lower-numbered capture was deleted), and the process has room to
    hold the counted files open, the save overwrites that file: the
    folder does not grow, and the next number stays the same, so every
    further save overwrites the same file again. *)
Theorem save_overwrites_taken_name
    (w : World) (d : gmap string Entry) (old frame : Frame) :
  output_dir w = Some d →
  isOpened (vs w) = true →
  (∀ i e, d !! i = Some e → has_valid_ext i = true → openable e = true) →
  (valid_count d ≤ open_max w)%nat →
  d !! filename (Z.of_nat (valid_count d) + 1) = Some (ImageFile old) →
  output_dir (callback (save_image (Some frame) true) w) =
    Some (<[filename (Z.of_nat (valid_count d) + 1) := ImageFile frame]> d)
  ∧ size (<[filename (Z.of_nat (valid_count d) + 1) := ImageFile frame]> d) = size d
  ∧ fst (nextNumber (output_path w) w) = Returned (Z.of_nat (valid_count d) + 1)
  ∧ fst (nextNumber (output_path w) (callback (save_image (Some frame) true) w)) =
      Returned (Z.of_nat (valid_count d) + 1).
Proof.
  intros Hdir Hopen Hok Hroom Htaken.
  destruct (save_image_writes w d frame Hdir Hopen Hok Hroom)
    as (Hdir' & _ & Hpath' & _ & Hmax'); [by rewrite Htaken|].
  pose proof (valid_count_insert_same d _ (ImageFile frame) _ Htaken
                (filename_has_valid_ext _)) as Hsame.
  split; [exact Hdir'|]. split; [apply map_size_insert_Some; eauto|].
  unfold nextNumber. exec_unfold. split.
  - by rewrite (get_current_count_returns _ w d Hdir Hok Hroom).
  - unfold output_dir in Hdir'. rewrite Hpath' in Hdir'.
    rewrite (get_current_count_returns _ _ _ Hdir' (all_open_insert d _ frame Hok))
      by (rewrite Hsame, Hmax'; exact Hroom).
    by rewrite Hsame.
Qed.

Lemma save_overwrites_taken_name_witness :
  output_dir (callback (save_image (Some wide_frame) true) (session gapped None 3)) =
    Some (<[filename (Z.of_nat (valid_count gapped) + 1) := ImageFile wide_frame]> gapped)
  ∧ size (<[filename (Z.of_nat (valid_count gapped) + 1) := ImageFile wide_frame]> gapped) =
      size gapped
  ∧ fst (nextNumber (output_path (session gapped None 3)) (session gapped None 3)) =
      Returned (Z.of_nat (valid_count gapped) + 1)
  ∧ fst (nextNumber (output_path (session gapped None 3))
           (callback (save_image (Some wide_frame) true) (session gapped None 3))) =
      Returned (Z.of_nat (valid_count gapped) + 1).
Proof.
  apply (save_overwrites_taken_name (session gapped None 3) gapped dot_frame wide_frame).
  - reflexivity.
  - reflexivity.
  - unfold gapped. rewrite <- insert_empty. apply all_open_insert, all_open_empty.
  - apply Nat.leb_le. vm_compute. reflexivity.
  - vm_compute. reflexivity.
Defined.

(** X8. When the name for the next number is free and the process has
    room to hold the counted files and one more open, a save whose read
    and write succeed adds exactly that file, leaves every other entry as
    it was, and moves the next number up by one. *)
Theorem save_into_free_name_advances
    (w : World) (d : gmap string Entry) (frame : Frame) :
  output_dir w = Some d →
  isOpened (vs w) = true →
  (∀ i e, d !! i = Some e → has_valid_ext i = true → openable e = true) →
  (valid_count d < open_max w)%nat →
  d !! filename (Z.of_nat (valid_count d) + 1) = None →
  ∃ d', output_dir (callback (save_image (Some frame) true) w) = Some d'
        ∧ d' !! filename (Z.of_nat (valid_count d) + 1) = Some (ImageFile frame)
        ∧ (∀ j, j ≠ filename (Z.of_nat (valid_count d) + 1) → d' !! j = d !! j)
        ∧ size d' = S (size d)
        ∧ fst (nextNumber (output_path w) (callback (save_image (Some frame) true) w)) =
            Returned (Z.of_nat (valid_count d) + 2).
Proof.
  intros Hdir Hopen Hok Hroom Hfree.
  destruct (save_image_writes w d frame Hdir Hopen Hok (Nat.lt_le_incl _ _ Hroom))
    as (Hdir' & _ & Hpath' & _ & Hmax'); [by rewrite Hfree|].
  pose proof (valid_count_insert_new d _ (ImageFile frame) Hfree
                (filename_has_valid_ext _)) as Hnew.
  eexists. split; [exact Hdir'|].
  split; [apply lookup_insert_eq|].
  split; [by intros j Hj; rewrite lookup_insert_ne|].
  split; [by apply map_size_insert_None|].
  unfold nextNumber. exec_unfold.
  unfold output_dir in Hdir'. rewrite Hpath' in Hdir'.
  rewrite (get_current_count_returns _ _ _ Hdir' (all_open_insert d _ frame Hok))
    by (rewrite Hnew, Hmax'; lia).
  rewrite Hnew.
  cbn [fst]. f_equal. lia.
Qed.

Lemma save_into_free_name_advances_witness :
  ∃ d', output_dir (callback (save_image (Some wide_frame) true)
                      (session mixed_images None 1)) = Some d'
        ∧ d' !! filename (Z.of_nat (valid_count mixed_images) + 1) = Some (ImageFile wide_frame)
        ∧ (∀ j, j ≠ filename (Z.of_nat (valid_count mixed_images) + 1) →
                d' !! j = mixed_images !! j)
        ∧ size d' = S (size mixed_images)
        ∧ fst (nextNumber (output_path (session mixed_images None 1))
                 (callback (save_image (Some wide_frame) true)
                    (session mixed_images None 1))) =
            Returned (Z.of_nat (valid_count mixed_images) + 2).
Proof.
  apply (save_into_free_name_advances (session mixed_images None 1) mixed_images wide_frame).
  - reflexivity.
  - reflexivity.
  - unfold mixed_images. rewrite <- insert_empty.
    apply all_open_insert, all_open_insert, all_open_empty.
  - apply Nat.ltb_lt. vm_compute. reflexivity.
  - vm_compute. reflexivity.
Defined.

(** X9. One entry with the valid extension that does not open blocks every
    save: [save_image] raises out of the count before it prints, reads
    the camera or writes, whatever the camera and the disk would have
    answered. The error is the one [Image.open] gives on an entry that
    does not open, or [OSError] 24 when the process runs out of room for
    open files before the loop reaches such an entry. *)
Theorem unopenable_entry_blocks_saves
    (w : World) (d : gmap string Entry) (i : string) (e : Entry)
    (grabbed : option Frame) (disk_ok : bool) :
  output_dir w = Some d →
  d !! i = Some e → has_valid_ext i = true → openable e = false →
  ∃ ex, save_image grabbed disk_ok w = (Raised ex, w)
        ∧ (ex = OSError_EMFILE
           ∨ ∃ j e', d !! j = Some e' ∧ has_valid_ext j = true ∧ openable e' = false
                     ∧ ex = open_error e').
Proof.
  intros Hdir Hi Hext Hbad.
  destruct (get_current_count_raises (output_path w) w d i e Hdir Hi Hext Hbad)
    as (ex & Hrun & _ & Hex).
  exists ex. split; [|exact Hex].
  apply save_image_count_raises. by rewrite Hrun.
Qed.

Lemma unopenable_entry_blocks_saves_witness :
  ∃ ex, save_image (Some dot_frame) true (session damaged None 2) =
          (Raised ex, session damaged None 2)
        ∧ (ex = OSError_EMFILE
           ∨ ∃ j e', damaged !! j = Some e' ∧ has_valid_ext j = true ∧ openable e' = false
                     ∧ ex = open_error e').
Proof.
  apply (unopenable_entry_blocks_saves (session damaged None 2) damaged "bad.jpg" OtherFile
           (Some dot_frame) true); reflexivity.
Defined.

(** With no room left for an open file the count fails before it reaches
    the damaged entry, and the save raises [OSError] 24. *)
Example damaged_folder_without_room :
  save_image (Some dot_frame) true (set_open_max 0 (session damaged None 2)) =
    (Raised OSError_EMFILE, set_open_max 0 (session damaged None 2)).
Proof. vm_compute. reflexivity. Qed.



(** X11. A click of Save touches one name at most: whatever the camera
    and the disk answer, every other folder and every entry of the output
    folder other than the one named for the fresh count is as before,
    and when the count raises the folder is as before altogether. No
    name is lost as long as the write either goes through or cannot open
    its target. When the encoder fails after the target was open,
    [cv2.imwrite] removes the target: a capture that was stored under
    that name is gone. *)
Theorem save_changes_only_target
    (w : World) (d : gmap string Entry) (grabbed : option Frame)
    (answer : imwrite_answer) :
  output_dir w = Some d →
  ∃ d', output_dir (callback (save_image grabbed answer) w) = Some d'
        ∧ (∀ folder, folder ≠ output_path w →
             fs (callback (save_image grabbed answer) w) !! folder = fs w !! folder)
        ∧ (∀ k j, fst (get_current_count (output_path w) w) = Returned k →
             j ≠ filename (k + 1) → d' !! j = d !! j)
        ∧ (∀ ex, fst (get_current_count (output_path w) w) = Raised ex → d' = d)
        ∧ (answer ≠ EncoderFailed → ∀ j, is_Some (d !! j) → is_Some (d' !! j))
        ∧ (∀ k frame, fst (get_current_count (output_path w) w) = Returned k →
             grabbed = Some frame → isOpened (vs w) = true →
             answer = EncoderFailed →
             is_subdir (d !! filename (k + 1)) = false →
             d' !! filename (k + 1) = None).
Proof.
  intros Hdir. unfold callback.
  assert (Hsame : ∀ w',
            fs w' = fs w → output_path w' = output_path w →
            (∀ k frame, fst (get_current_count (output_path w) w) = Returned k →
               grabbed = Some frame → isOpened (vs w) = true →
               answer = EncoderFailed →
               is_subdir (d !! filename (k + 1)) = false → False) →
            ∃ d', output_dir w' = Some d'
              ∧ (∀ folder, folder ≠ output_path w → fs w' !! folder = fs w !! folder)
              ∧ (∀ k j, fst (get_current_count (output_path w) w) = Returned k →
                   j ≠ filename (k + 1) → d' !! j = d !! j)
              ∧ (∀ ex, fst (get_current_count (output_path w) w) = Raised ex → d' = d)
              ∧ (answer ≠ EncoderFailed → ∀ j, is_Some (d !! j) → is_Some (d' !! j))
              ∧ (∀ k frame, fst (get_current_count (output_path w) w) = Returned k →
                   grabbed = Some frame → isOpened (vs w) = true →
                   answer = EncoderFailed →
                   is_subdir (d !! filename (k + 1)) = false →
                   d' !! filename (k + 1) = None)).
  { intros w' Hfs Hpath Hno. exists d. unfold output_dir in *.
    rewrite Hfs, Hpath. split; [exact Hdir|].
    split; [reflexivity|]. split; [reflexivity|]. split; [reflexivity|].
    split; [auto|]. intros k frame H1 H2 H3 H4 H5. destruct (Hno k frame H1 H2 H3 H4 H5). }
  destruct (fst (get_current_count (output_path w) w)) as [k|ex] eqn:Hcount.
  - destruct (isOpened (vs w)) eqn:Hopen; [destruct grabbed as [frame|]|].
    + rewrite (save_image_read_ok_any w k Hcount d frame answer Hopen Hdir).
      destruct (is_subdir (d !! filename (k + 1))) eqn:Hsub; [|destruct answer].
      * apply Hsame; [reflexivity | reflexivity|].
        intros k0 frame0 [= <-] _ _ _ Hfree. congruence.
      * exists (<[filename (k + 1) := ImageFile frame]> d).
        unfold output_dir, reported, written, announced in *. world_simpl.
        split; [apply lookup_insert_eq|].
        split; [intros folder Hne; by rewrite lookup_insert_ne|].
        split; [intros k0 j [= <-] Hj; by rewrite lookup_insert_ne|].
        split; [discriminate|].
        split; [intros _ j Hj; apply lookup_insert_is_Some'; by right|].
        discriminate.
      * apply Hsame; [reflexivity | reflexivity|]. discriminate.
      * exists (delete (filename (k + 1)) d).
        unfold output_dir, reported, spoiled, announced in *. world_simpl.
        split; [apply lookup_insert_eq|].
        split; [intros folder Hne; by rewrite lookup_insert_ne|].
        split; [intros k0 j [= <-] Hj; by rewrite lookup_delete_ne|].
        split; [discriminate|].
        split; [intros Hne; by destruct Hne|].
        intros k0 frame0 [= <-] _ _ _ _. apply lookup_delete_eq.
    + rewrite (save_image_read_fails w k Hcount None answer);
        [| unfold vs_read; exec_unfold; by rewrite Hopen].
      apply Hsame; [reflexivity | reflexivity|]. discriminate.
    + rewrite (save_image_read_fails w k Hcount grabbed answer);
        [| unfold vs_read; exec_unfold; by rewrite Hopen].
      apply Hsame; [reflexivity | reflexivity|]. discriminate.
  - rewrite (save_image_count_raises w ex grabbed answer Hcount).
    apply Hsame; [reflexivity | reflexivity|]. discriminate.
Qed.

Lemma save_changes_only_target_witness :
  ∃ d', output_dir (callback (save_image (Some wide_frame) EncoderFailed)
                      (session gapped None 1)) = Some d'
        ∧ (∀ folder, folder ≠ output_path (session gapped None 1) →
             fs (callback (save_image (Some wide_frame) EncoderFailed)
                   (session gapped None 1)) !! folder =
             fs (session gapped None 1) !! folder)
        ∧ (∀ k j, fst (get_current_count (output_path (session gapped None 1))
                         (session gapped None 1)) = Returned k →
             j ≠ filename (k + 1) → d' !! j = gapped !! j)
        ∧ (∀ ex, fst (get_current_count (output_path (session gapped None 1))
                        (session gapped None 1)) = Raised ex → d' = gapped)
        ∧ (EncoderFailed ≠ EncoderFailed → ∀ j, is_Some (gapped !! j) → is_Some (d' !! j))
        ∧ (∀ k frame, fst (get_current_count (output_path (session gapped None 1))
                             (session gapped None 1)) = Returned k →
             Some wide_frame = Some frame →
             isOpened (vs (session gapped None 1)) = true →
             EncoderFailed = EncoderFailed →
             is_subdir (gapped !! filename (k + 1)) = false →
             d' !! filename (k + 1) = None).
Proof.
  apply (save_changes_only_target (session gapped None 1) gapped (Some wide_frame)
           EncoderFailed).
  reflexivity.
Defined.

(** A failed encoding on a name that is taken: the capture stored under
    that name is gone and the folder is empty. *)
Example failed_encode_removes_capture :
  gapped !! filename 2 = Some (ImageFile dot_frame)
  ∧ fst (get_current_count "out" (session gapped None 1)) = Returned 1
  ∧ output_dir (callback (save_image (Some wide_frame) EncoderFailed)
                  (session gapped None 1)) = Some ∅.
Proof. vm_compute. auto. Qed.

(** X12. The target path is printed before the camera is read: when the
    read fails the console has gained the line ["new save: <path>"], with
    the path made of the output path, one separator unless the output
    path ends with one, and the file name for the fresh count, and it has
    gained no other line. *)
Theorem failed_read_prints_target
    (w : World) (k : Z) (grabbed : option Frame) (disk_ok : bool) :
  fst (get_current_count (output_path w) w) = Returned k →
  fst (vs_read grabbed w) = Returned (false, None) →
  stdout (callback (save_image grabbed disk_ok) w) =
    (stdout w ++
     ["new save: " +:+
      (if (String.eqb (output_path w) EmptyString
           || os_path.ends_with_sep (output_path w))%bool
       then output_path w +:+ filename (k + 1)
       else output_path w +:+ "/" +:+ filename (k + 1))])%list.
Proof.
  intros Hcount Hread. unfold callback.
  rewrite (save_image_read_fails w k Hcount grabbed disk_ok Hread).
  unfold announced. world_simpl. by rewrite path_str_filename.
Qed.

Lemma failed_read_prints_target_witness :
  stdout (callback (save_image None true)
            (set_output_path "./" (set_fs {[ "./" := mixed_images ]} (session ∅ None 1)))) =
    ["new save: ./00000003.jpg"].
Proof.
  apply (failed_read_prints_target
           (set_output_path "./" (set_fs {[ "./" := mixed_images ]} (session ∅ None 1)))
           2 None true).
  - vm_compute. reflexivity.
  - reflexivity.
Defined.

(* ===================================================================== *)
(** ** Runs of saves *)
(* ===================================================================== *)

Lemma numbered_valid_count (k : nat) (d : gmap string Entry) :
  numbered k d → valid_count d = k.
Proof.
  intros [Hsize Hall]. unfold valid_count.
  rewrite map_filter_id; [exact Hsize|].
  intros j e Hj. destruct (Hall j e Hj) as (_ & i & _ & ->).
  apply filename_has_valid_ext.
Qed.

Lemma numbered_all_open (k : nat) (d : gmap string Entry) :
  numbered k d →
  ∀ i e, d !! i = Some e → has_valid_ext i = true → openable e = true.
Proof. intros [_ Hall] i e Hi _. by destruct (Hall i e Hi). Qed.

Lemma numbered_free (k : nat) (d : gmap string Entry) :
  numbered k d → d !! filename (Z.of_nat k + 1) = None.
Proof.
  intros [_ Hall]. destruct (d !! filename (Z.of_nat k + 1)) as [e|] eqn:He; [|reflexivity].
  destruct (Hall _ e He) as (_ & i & Hi & Heq).
  apply filename_inj in Heq; lia.
Qed.

Lemma numbered_step (k : nat) (d : gmap string Entry) (frame : Frame) :
  numbered k d →
  numbered (S k) (<[filename (Z.of_nat k + 1) := ImageFile frame]> d).
Proof.
  intros Hnum. pose proof (numbered_free k d Hnum) as Hfree.
  destruct Hnum as [Hsize Hall]. split.
  - rewrite map_size_insert_None by exact Hfree. by rewrite Hsize.
  - intros j e Hj. apply lookup_insert_Some in Hj as [[<- <-]|[Hne Hj]].
    + split; [reflexivity|]. exists (Z.of_nat k + 1). split; [lia | reflexivity].
    + destruct (Hall j e Hj) as (Hop & i & Hi & ->).
      split; [exact Hop|]. exists i. split; [lia | reflexivity].
Qed.

Lemma saves_numbered (frames : list Frame) :
  ∀ (w : World) (d : gmap string Entry) (k : nat),
    output_dir w = Some d →
    isOpened (vs w) = true →
    numbered k d →
    (k + List.length frames ≤ S (open_max w))%nat →
    ∃ d', output_dir (saves (good_click <$> frames) w) = Some d'
          ∧ numbered (k + List.length frames) d'
          ∧ (∀ j e, d !! j = Some e → d' !! j = Some e)
          ∧ ∀ i f, frames !! i = Some f →
              d' !! filename (Z.of_nat (k + i) + 1) = Some (ImageFile f).
Proof.
  induction frames as [|frame rest IH]; intros w d k Hdir Hopen Hnum Hroom.
  - exists d. cbn [fmap list_fmap saves List.length].
    rewrite Nat.add_0_r. split; [exact Hdir|]. split; [exact Hnum|].
    split; [auto|]. intros i f Hi. by rewrite lookup_nil in Hi.
  - pose proof (numbered_valid_count k d Hnum) as Hvc.
    pose proof (numbered_free k d Hnum) as Hfree.
    cbn [List.length] in Hroom.
    destruct (save_image_writes w d frame Hdir Hopen (numbered_all_open k d Hnum))
      as (Hdir1 & Hopen1 & _ & _ & Hmax1); [rewrite Hvc; lia | by rewrite Hvc, Hfree|].
    rewrite Hvc in Hdir1.
    destruct (IH _ _ (S k) Hdir1 Hopen1 (numbered_step k d frame Hnum))
      as (d' & Hdir' & Hnum' & Hkeep & Hnew); [rewrite Hmax1; lia|].
    exists d'. cbn [fmap list_fmap saves good_click List.length].
    split; [exact Hdir'|].
    split; [by replace (k + S (List.length rest))%nat with (S k + List.length rest)%nat by lia|].
    split.
    + intros j e Hj. apply Hkeep. rewrite lookup_insert_ne; [exact Hj|].
      intros <-. rewrite Hfree in Hj. discriminate.
    + intros [|i] f Hi.
      * cbn in Hi. injection Hi as <-. rewrite Nat.add_0_r.
        apply Hkeep, lookup_insert_eq.
      * cbn in Hi. replace (k + S i)%nat with (S k + i)%nat by lia. by apply Hnew.
Qed.

(** X13. Numbering stays consecutive under a run of saves, as far as the
    room for open files reaches: from a folder holding exactly the
    captures numbered [1 .. k], [n] clicks of Save whose reads and writes
    succeed, with [k + n - 1] files within that room so that every count
    returns, leave exactly [k + n] files, the old ones untouched and the
    [i]-th new frame under the name for [k + i]. *)
Theorem saves_number_consecutively
    (w : World) (d : gmap string Entry) (k : nat) (frames : list Frame) :
  output_dir w = Some d →
  isOpened (vs w) = true →
  numbered k d →
  (k + List.length frames ≤ S (open_max w))%nat →
  ∃ d', output_dir (saves (good_click <$> frames) w) = Some d'
        ∧ size d' = (k + List.length frames)%nat
        ∧ (∀ j e, d !! j = Some e → d' !! j = Some e)
        ∧ ∀ i f, frames !! i = Some f →
            d' !! filename (Z.of_nat (k + i) + 1) = Some (ImageFile f).
Proof.
  intros Hdir Hopen Hnum Hroom.
  destruct (saves_numbered frames w d k Hdir Hopen Hnum Hroom)
    as (d' & Hdir' & [Hsize _] & Hkeep & Hnew).
  eauto 10.
Qed.

Lemma saves_number_consecutively_witness :
  ∃ d', output_dir (saves (good_click <$> [dot_frame; wide_frame; dot_frame; wide_frame])
                      (session ∅ None 1)) = Some d'
        ∧ size d' = (0 + List.length [dot_frame; wide_frame; dot_frame; wide_frame])%nat
        ∧ (∀ j e, (∅ : gmap string Entry) !! j = Some e → d' !! j = Some e)
        ∧ ∀ i f, [dot_frame; wide_frame; dot_frame; wide_frame] !! i = Some f →
            d' !! filename (Z.of_nat (0 + i) + 1) = Some (ImageFile f).
Proof.
  apply (saves_number_consecutively (session ∅ None 1) ∅ 0
           [dot_frame; wide_frame; dot_frame; wide_frame]).
  - reflexivity.
  - reflexivity.
  - split; [reflexivity|]. intros j e Hj. by rewrite lookup_empty in Hj.
  - apply Nat.leb_le. vm_compute. reflexivity.
Defined.

(** X14. A click of Save never touches the preview: the displayed image,
    the panel, the pending ticks, the camera handle, the output path and
    the window are as before, whatever the camera and the disk answer. *)
Theorem save_leaves_preview_alone
    (w : World) (grabbed : option Frame) (disk_ok : bool) :
  current_image (callback (save_image grabbed disk_ok) w) = current_image w
  ∧ panel_imgtk (callback (save_image grabbed disk_ok) w) = panel_imgtk w
  ∧ timers (callback (save_image grabbed disk_ok) w) = timers w
  ∧ vs (callback (save_image grabbed disk_ok) w) = vs w
  ∧ output_path (callback (save_image grabbed disk_ok) w) = output_path w
  ∧ master_alive (callback (save_image grabbed disk_ok) w) = master_alive w.
Proof.
  destruct (save_image_frame w grabbed disk_ok) as (H1 & H2 & H3 & H4 & H5 & H6).
  auto 10.
Qed.

(* ===================================================================== *)
(** ** The preview *)
(* ===================================================================== *)

(** X15. A tick whose read fails keeps the last picture: nothing changes
    but the timer queue, which gains the one entry that re-arms the tick
    30 ms later. *)
Theorem failed_tick_keeps_display (w : World) (grabbed : option Frame) :
  master_alive w = true →
  fst (vs_read grabbed w) = Returned (false, None) →
  video_loop grabbed w =
    (Returned tt, set_tk true (timers w ++ [(30, cb_video_loop)]) w).
Proof.
  intros Halive Hread. unfold video_loop, vs_read, after in *. exec_unfold.
  destruct (isOpened (vs w)); [destruct grabbed|]; simpl in *;
    try discriminate; by rewrite Halive.
Qed.

Lemma failed_tick_keeps_display_witness :
  video_loop None (session ∅ (Some (transform wide_frame)) 1) =
    (Returned tt,
     set_tk true (timers (session ∅ (Some (transform wide_frame)) 1) ++ [(30, cb_video_loop)])
       (session ∅ (Some (transform wide_frame)) 1)).
Proof.
  apply (failed_tick_keeps_display (session ∅ (Some (transform wide_frame)) 1) None);
    reflexivity.
Defined.

Lemma ticks_frame (grabs : list (option Frame)) (w : World) :
  fs (ticks grabs w) = fs w ∧ count (ticks grabs w) = count w
  ∧ output_path (ticks grabs w) = output_path w ∧ stdout (ticks grabs w) = stdout w
  ∧ vs (ticks grabs w) = vs w ∧ open_max (ticks grabs w) = open_max w.
Proof.
  revert w. induction grabs as [|grabbed rest IH]; intros w; [auto 10|].
  cbn [ticks].
  destruct (IH (callback (video_loop grabbed) w)) as (H1 & H2 & H3 & H4 & H5 & H6).
  destruct (video_loop_frame w grabbed) as (G1 & G2 & G3 & G4 & G5 & _).
  pose proof (video_loop_open_max w grabbed) as G6.
  rewrite H1, H2, H3, H4, H5, H6. auto 10.
Qed.

(** X16. The preview never writes: after any run of ticks, with frames or
    without, returning or raising, the file system, the cached count, the
    output path, the console and the camera handle are as before, so the
    count of any folder, and with it the next file number, is the
    same. *)
Theorem preview_never_touches_disk (grabs : list (option Frame)) (w : World) :
  fs (ticks grabs w) = fs w
  ∧ count (ticks grabs w) = count w
  ∧ output_path (ticks grabs w) = output_path w
  ∧ stdout (ticks grabs w) = stdout w
  ∧ vs (ticks grabs w) = vs w
  ∧ ∀ folder,
      fst (get_current_count folder (ticks grabs w)) = fst (get_current_count folder w).
Proof.
  destruct (ticks_frame grabs w) as (H1 & H2 & H3 & H4 & H5 & H6).
  do 5 (split; [assumption|]).
  intros folder. by apply get_current_count_fs.
Qed.

Lemma map_is_fmap {A B} (f : A → B) (l : list A) : map f l = f <$> l.
Proof. induction l as [|x l IH]; [reflexivity|]. cbn. by rewrite IH. Qed.

(** The pixels of one displayed row. *)
Lemma mirrored_row_lookup (row : list Pixel) (n c : nat) :
  (200 + n ≤ List.length row)%nat → (c < n)%nat →
  rev (take n (drop 200 row)) !! c = row !! (200 + n - S c)%nat.
Proof.
  intros Hlen Hc. rewrite rev_alt. fold (reverse (take n (drop 200 row))).
  assert (Hn : List.length (take n (drop 200 row)) = n)
    by (rewrite length_take_le; [reflexivity | rewrite length_drop; lia]).
  rewrite reverse_lookup by (rewrite Hn; exact Hc).
  rewrite Hn, lookup_take_lt by lia. rewrite lookup_drop. f_equal. lia.
Qed.

(** X17. What the preview shows. After a tick on a live window with a
    rectangular frame more than 400 pixels wide, the panel and
    [current_image] hold a picture with as many rows as the frame, each
    400 pixels narrower, whose pixel in row [r], column [c] is the
    frame's pixel in row [r], column [W - 201 - c] with its first and
    third channel exchanged: 200 columns are cut on each side and the
    rest is mirrored. *)
Theorem tick_shows_mirrored_crop (w : World) (frame : Frame) :
  isOpened (vs w) = true →
  master_alive w = true →
  rectangular frame →
  400 < width frame →
  ∃ im, panel_imgtk (callback (video_loop (Some frame)) w) = Some im
        ∧ current_image (callback (video_loop (Some frame)) w) = Some im
        ∧ List.length im = List.length frame
        ∧ (∀ r shown, im !! r = Some shown →
             Z.of_nat (List.length shown) = width frame - 400)
        ∧ ∀ (r c : nat) (row : list Pixel),
            frame !! r = Some row →
            Z.of_nat c < width frame - 400 →
            im !! r ≫= (fun shown => shown !! c) =
              swap_channels <$> row !! (Z.to_nat (width frame) - 201 - c)%nat.
Proof.
  intros Hopen Halive Hrect Hwide.
  exists (transform frame). unfold callback.
  rewrite (video_loop_shows w frame Hopen Halive (Z.lt_le_incl _ _ Hwide)).
  world_simpl. do 2 (split; [reflexivity|]).
  assert (Hrow : ∀ r, transform frame !! r =
            (fun row => rev (take (Z.to_nat (width frame - 200 - 200))
                               (drop 200 (swap_channels <$> row)))) <$> frame !! r).
  { intros r. unfold transform, ImageOps_mirror, cvtColor_BGR2RGB, Image, Frame, Raster in *.
    rewrite (map_is_fmap (@rev Pixel)).
    rewrite (map_is_fmap (fun row : list Pixel => take _ (drop 200 row))).
    rewrite (map_is_fmap (map _) frame).
    rewrite !list_lookup_fmap.
    destruct (frame !! r) as [row|]; [|reflexivity].
    cbn [fmap option_fmap option_map]. by rewrite (map_is_fmap _ row). }
  assert (Hlen : ∀ r row, frame !! r = Some row →
            List.length row = Z.to_nat (width frame)).
  { intros r row Hr. pose proof (proj1 (Forall_lookup _ _) Hrect r row Hr). simpl in *. lia. }
  split; [|split].
  - unfold transform, ImageOps_mirror, cvtColor_BGR2RGB. by rewrite !List.length_map.
  - intros r shown. rewrite Hrow. destruct (frame !! r) as [row|] eqn:Hr; [|discriminate].
    cbn [fmap option_fmap option_map]. intros [= <-].
    rewrite length_rev, length_take_le; [lia|].
    rewrite length_drop, length_fmap, (Hlen r row Hr). lia.
  - intros r c row Hr Hc. rewrite Hrow, Hr. cbn [fmap option_fmap option_map mbind option_bind].
    rewrite mirrored_row_lookup;
      [| rewrite length_fmap, (Hlen r row Hr); lia | lia].
    rewrite list_lookup_fmap. do 2 f_equal. lia.
Qed.

Lemma tick_shows_mirrored_crop_witness :
  ∃ im, panel_imgtk (callback (video_loop (Some marked_frame)) (session ∅ None 1)) = Some im
        ∧ current_image (callback (video_loop (Some marked_frame)) (session ∅ None 1)) = Some im
        ∧ List.length im = List.length marked_frame
        ∧ (∀ r shown, im !! r = Some shown →
             Z.of_nat (List.length shown) = width marked_frame - 400)
        ∧ ∀ (r c : nat) (row : list Pixel),
            marked_frame !! r = Some row →
            Z.of_nat c < width marked_frame - 400 →
            im !! r ≫= (fun shown => shown !! c) =
              swap_channels <$> row !! (Z.to_nat (width marked_frame) - 201 - c)%nat.
Proof.
  apply (tick_shows_mirrored_crop (session ∅ None 1) marked_frame).
  - reflexivity.
  - reflexivity.
  - unfold rectangular, marked_frame. repeat constructor.
  - vm_compute. reflexivity.
Defined.

Example marked_frame_shown :
  transform marked_frame =
    [[(Byte.x00, Byte.x00, Byte.x00); (Byte.x00, Byte.x00, Byte.x00);
      (Byte.x0c, Byte.x0b, Byte.x0a)];
     [(Byte.x00, Byte.x00, Byte.x00); (Byte.x00, Byte.x00, Byte.x00);
      (Byte.x03, Byte.x02, Byte.x01)]].
Proof. reflexivity. Qed.

(* ===================================================================== *)
(** ** More about the count *)
(* ===================================================================== *)

Lemma has_valid_ext_no_dot (s : string) : plain s = true → has_valid_ext s = false.
Proof.
  intros Hs. unfold has_valid_ext, os_path.splitext.
  by rewrite (rfind_dot_none s Hs), (rfind_sep_none s Hs).
Qed.

(** X18. Which names the listing loop counts. For a name made of a
    non-empty stem, a dot and a suffix, none of them containing a dot or
    a slash, the name is counted exactly when the suffix is [jpg] in any
    mix of upper and lower case; a name without any dot is never
    counted. *)
Theorem extension_test_ignores_case (s e : string) :
  s ≠ EmptyString → plain s = true → plain e = true →
  (has_valid_ext (s +:+ String "." e) = true ↔ Py.lower e = "jpg")
  ∧ has_valid_ext s = false.
Proof.
  intros Hne Hs He. split; [|by apply has_valid_ext_no_dot].
  rewrite (has_valid_ext_plain s e Hne Hs He).
  change (Py.lower (String "." e)) with (String "." (Py.lower e)).
  rewrite String.eqb_eq. split; [by intros [= ->] | by intros ->].
Qed.

Lemma extension_test_ignores_case_witness :
  (has_valid_ext ("IMG_0042" +:+ String "." "JpG") = true ↔ Py.lower "JpG" = "jpg")
  ∧ has_valid_ext "IMG_0042" = false.
Proof.
  apply (extension_test_ignores_case "IMG_0042" "JpG"); [discriminate | reflexivity..].
Defined.

(** X19. The count only reads: whatever it meets, it leaves the world
    exactly as it found it, and a count that returns lies between 0 and
    the number of entries of the folder. *)
Theorem count_reads_only (folder : string) (w : World) :
  snd (get_current_count folder w) = w
  ∧ ∀ d k, fs w !! folder = Some d →
           fst (get_current_count folder w) = Returned k →
           0 ≤ k ≤ Z.of_nat (size d).
Proof.
  split; [apply get_current_count_world|].
  intros d k Hdir Hret.
  destruct (get_current_count_Returned_inv folder w d k Hdir Hret) as (_ & _ & ->).
  rewrite <- length_filter_map_to_list, <- length_map_to_list.
  pose proof (length_filter counted (map_to_list d)). lia.
Qed.

Lemma count_reads_only_witness :
  snd (get_current_count "out" (session (mixed_images ∪ mixed_others) None 1)) =
    session (mixed_images ∪ mixed_others) None 1
  ∧ ∀ d k, fs (session (mixed_images ∪ mixed_others) None 1) !! "out" = Some d →
           fst (get_current_count "out" (session (mixed_images ∪ mixed_others) None 1))
             = Returned k →
           0 ≤ k ≤ Z.of_nat (size d).
Proof.
  apply (count_reads_only "out" (session (mixed_images ∪ mixed_others) None 1)).
Defined.

(* ===================================================================== *)
(** ** After the teardown *)
(* ===================================================================== *)

Lemma destructor_releases (w : World) :
  isOpened (vs (callback destructor w)) = false
  ∧ fs (callback destructor w) = fs w.
Proof.
  unfold callback. destruct (master_alive w) eqn:Halive.
  - by rewrite (destructor_live w Halive).
  - by rewrite (destructor_destroyed w Halive).
Qed.

Lemma save_released_camera (w : World) (grabbed : option Frame) (disk_ok : bool) :
  isOpened (vs w) = false →
  fs (callback (save_image grabbed disk_ok) w) = fs w
  ∧ isOpened (vs (callback (save_image grabbed disk_ok) w)) = false.
Proof.
  intros Hclosed.
  destruct (save_image_frame w grabbed disk_ok) as (_ & Hvs & _).
  split; [|by rewrite Hvs].
  unfold callback.
  destruct (fst (get_current_count (output_path w) w)) as [k|ex] eqn:Hcount.
  - rewrite (save_image_read_fails w k Hcount grabbed disk_ok); [reflexivity|].
    unfold vs_read. exec_unfold. by rewrite Hclosed.
  - by rewrite (save_image_count_raises w ex grabbed disk_ok Hcount).
Qed.

Lemma saves_released_camera (clicks : list (option Frame * bool)) (w : World) :
  isOpened (vs w) = false → fs (saves clicks w) = fs w.
Proof.
  revert w. induction clicks as [|[grabbed disk_ok] rest IH]; intros w Hclosed;
    [reflexivity|].
  cbn [saves].
  destruct (save_released_camera w grabbed disk_ok Hclosed) as [Hfs Hclosed'].
  by rewrite (IH _ Hclosed'), Hfs.
Qed.

(** X20. Once the destructor has run, no save writes any more: it has
    released the camera, every later read delivers nothing, and the file
    system stays as the destructor left it, which is as it found it. *)
Theorem no_file_written_after_destructor
    (w : World) (clicks : list (option Frame * bool)) :
  fs (saves clicks (callback destructor w)) = fs w.
Proof.
  destruct (destructor_releases w) as [Hclosed Hfs].
  by rewrite (saves_released_camera clicks _ Hclosed).
Qed.
